(** * The workout-session screen of [app/start-workout/[templateId].tsx]

    A shallow embedding of the state the screen keeps in its React hooks
    ([useState]) and of the handlers that change it, followed by the
    properties of the session runtime.

    Conventions of the embedding.
    - A JavaScript number that may be [undefined] is an [option Z]: the
      clocks count whole seconds and the inputs are read with [parseInt].
      Fractions (a weight typed with a decimal point) and [NaN] are not
      represented.
    - An array is a [list]; [a[i]] is stdpp's [a !! i] and an in-range
      [a[i] = x] is [<[i:=x]> a].  What JavaScript does out of range is
      written out where it happens.
    - Indices and lengths are [nat].  The source computes [length - 1] and
      [index - 1] on numbers; every such value is only compared with an
      index ([i < length - 1]) or passed to [Math.max(0, _)], where the
      truncated subtraction of [nat] gives the same answer.
    - A handler runs against the state of the latest render: the value it
      reads from a state variable and the [prev] its queued updaters
      receive are the same.  Updaters queued with [setX(prev => ...)] run,
      in order, once the handler has returned. *)

From Stdlib Require Import ZArith String Ascii Bool Lia.
From stdpp Require Import base option list strings pretty.

Local Open Scope string_scope.
Local Open Scope list_scope.
Local Open Scope nat_scope.

(** ** JavaScript values *)

(** [number | undefined]. *)
Definition jsnum : Type := option Z.

(** Truthiness of a number: [0] and [undefined] are falsy. *)
Definition truthy (n : jsnum) : bool :=
  match n with
  | Some z => negb (z =? 0)%Z
  | None => false
  end.

(** [a || b] on numbers. *)
Definition js_or (a b : jsnum) : jsnum := if truthy a then a else b.

(** [a || b] on strings, the left one possibly [undefined]. *)
Definition js_or_string (a : option string) (b : string) : string :=
  match a with
  | Some EmptyString => b
  | Some s => s
  | None => b
  end.

(** [n > 0], false on [undefined]. *)
Definition js_gt0 (n : jsnum) : bool :=
  match n with
  | Some z => (0 <? z)%Z
  | None => false
  end.

(** ** Data model *)

(** One entry of a template exercise's [sets_config]. *)
Module SetConfig.
Record t : Type := mk
  { reps : jsnum; weight : jsnum; duration : jsnum; restTime : jsnum }.
End SetConfig.

(** The joined [exercise] row of a template exercise. *)
Module ExerciseRef.
Record t : Type := mk { id : string; name : string }.
End ExerciseRef.

(** A row of [template_exercises].  [sets_config] is [None] when the
    column does not hold an array; [exercise] is [None] when the join is
    empty. *)
Module TemplateExercise.
Record t : Type := mk
  { exercise : option ExerciseRef.t;
    sets_config : option (list SetConfig.t);
    notes : option string }.
End TemplateExercise.

(** [WorkoutTemplate]; [exercises] is [None] when it is not an array. *)
Module WorkoutTemplate.
Record t : Type := mk
  { id : string;
    name : string;
    exercises : option (list TemplateExercise.t) }.
End WorkoutTemplate.

(** [WorkoutSet], with the [id] and [completed] that [ActiveSet] requires. *)
Module WorkoutSet.
Record t : Type := mk
  { id : string;
    reps : jsnum;
    weight : jsnum;
    duration : jsnum;
    restTime : jsnum;
    completed : bool;
    notes : string }.
End WorkoutSet.

Abbreviation ActiveSet := WorkoutSet.t.

(** [Partial<ActiveSet>]: every key may be absent ([None]); a key that is
    present may still hold [undefined]. *)
Module PartialSet.
Record t : Type := mk
  { id : option string;
    reps : option jsnum;
    weight : option jsnum;
    duration : option jsnum;
    restTime : option jsnum;
    completed : option bool;
    notes : option string }.

(** An [ActiveSet] passed where a partial one is expected: all keys
    present. *)
Definition of_set (s : ActiveSet) : t :=
  {| id := Some (WorkoutSet.id s);
     reps := Some (WorkoutSet.reps s);
     weight := Some (WorkoutSet.weight s);
     duration := Some (WorkoutSet.duration s);
     restTime := Some (WorkoutSet.restTime s);
     completed := Some (WorkoutSet.completed s);
     notes := Some (WorkoutSet.notes s) |}.

(** Reading a numeric property: an absent key reads [undefined]. *)
Definition read (k : option jsnum) : jsnum :=
  match k with
  | Some v => v
  | None => None
  end.
End PartialSet.

Module ActiveExercise.
Record t : Type := mk
  { exerciseId : string;
    exerciseName : string;
    sets : list ActiveSet;
    currentSetIndex : nat;
    notes : string }.

Definition with_sets (l : list ActiveSet) (e : t) : t :=
  {| exerciseId := exerciseId e; exerciseName := exerciseName e;
     sets := l; currentSetIndex := currentSetIndex e; notes := notes e |}.

Definition with_currentSetIndex (i : nat) (e : t) : t :=
  {| exerciseId := exerciseId e; exerciseName := exerciseName e;
     sets := sets e; currentSetIndex := i; notes := notes e |}.

Definition with_notes (n : string) (e : t) : t :=
  {| exerciseId := exerciseId e; exerciseName := exerciseName e;
     sets := sets e; currentSetIndex := currentSetIndex e; notes := n |}.
End ActiveExercise.

(** An exercise of the saved session. *)
Module SessionExercise.
Record t : Type := mk
  { exerciseId : string; sets : list WorkoutSet.t; notes : string }.
End SessionExercise.

Module WorkoutSession.
Record t : Type := mk
  { id : string;
    clientId : string;
    templateId : string;
    date : string;
    startTime : string;
    endTime : option string;
    exercises : list SessionExercise.t;
    notes : option string;
    completed : bool;
    synced : bool }.
End WorkoutSession.

(** The state variables of [StartWorkoutScreen]. *)
Module State.
Record t : Type := mk
  { template : option WorkoutTemplate.t;
    workoutSession : option WorkoutSession.t;
    exercises : list ActiveExercise.t;
    currentExerciseIndex : nat;
    isWorkoutStarted : bool;
    isPaused : bool;
    workoutTime : Z;
    restTime : Z;
    isResting : bool;
    showRestTimer : bool;
    showFinishModal : bool;
    workoutNotes : string }.

(** The initial values passed to [useState]. *)
Definition mount : t :=
  {| template := None; workoutSession := None; exercises := [];
     currentExerciseIndex := 0; isWorkoutStarted := false;
     isPaused := false; workoutTime := 0; restTime := 0;
     isResting := false; showRestTimer := false;
     showFinishModal := false; workoutNotes := "" |}.

Definition setTemplate (x : option WorkoutTemplate.t) (s : t) : t :=
  mk x (workoutSession s) (exercises s) (currentExerciseIndex s)
     (isWorkoutStarted s) (isPaused s) (workoutTime s) (restTime s)
     (isResting s) (showRestTimer s) (showFinishModal s) (workoutNotes s).

Definition setWorkoutSession (x : option WorkoutSession.t) (s : t) : t :=
  mk (template s) x (exercises s) (currentExerciseIndex s)
     (isWorkoutStarted s) (isPaused s) (workoutTime s) (restTime s)
     (isResting s) (showRestTimer s) (showFinishModal s) (workoutNotes s).

Definition setExercises (x : list ActiveExercise.t) (s : t) : t :=
  mk (template s) (workoutSession s) x (currentExerciseIndex s)
     (isWorkoutStarted s) (isPaused s) (workoutTime s) (restTime s)
     (isResting s) (showRestTimer s) (showFinishModal s) (workoutNotes s).

Definition setCurrentExerciseIndex (x : nat) (s : t) : t :=
  mk (template s) (workoutSession s) (exercises s) x
     (isWorkoutStarted s) (isPaused s) (workoutTime s) (restTime s)
     (isResting s) (showRestTimer s) (showFinishModal s) (workoutNotes s).

Definition setIsWorkoutStarted (x : bool) (s : t) : t :=
  mk (template s) (workoutSession s) (exercises s) (currentExerciseIndex s)
     x (isPaused s) (workoutTime s) (restTime s)
     (isResting s) (showRestTimer s) (showFinishModal s) (workoutNotes s).

Definition setIsPaused (x : bool) (s : t) : t :=
  mk (template s) (workoutSession s) (exercises s) (currentExerciseIndex s)
     (isWorkoutStarted s) x (workoutTime s) (restTime s)
     (isResting s) (showRestTimer s) (showFinishModal s) (workoutNotes s).

Definition setWorkoutTime (x : Z) (s : t) : t :=
  mk (template s) (workoutSession s) (exercises s) (currentExerciseIndex s)
     (isWorkoutStarted s) (isPaused s) x (restTime s)
     (isResting s) (showRestTimer s) (showFinishModal s) (workoutNotes s).

Definition setRestTime (x : Z) (s : t) : t :=
  mk (template s) (workoutSession s) (exercises s) (currentExerciseIndex s)
     (isWorkoutStarted s) (isPaused s) (workoutTime s) x
     (isResting s) (showRestTimer s) (showFinishModal s) (workoutNotes s).

Definition setIsResting (x : bool) (s : t) : t :=
  mk (template s) (workoutSession s) (exercises s) (currentExerciseIndex s)
     (isWorkoutStarted s) (isPaused s) (workoutTime s) (restTime s)
     x (showRestTimer s) (showFinishModal s) (workoutNotes s).

Definition setShowRestTimer (x : bool) (s : t) : t :=
  mk (template s) (workoutSession s) (exercises s) (currentExerciseIndex s)
     (isWorkoutStarted s) (isPaused s) (workoutTime s) (restTime s)
     (isResting s) x (showFinishModal s) (workoutNotes s).

Definition setShowFinishModal (x : bool) (s : t) : t :=
  mk (template s) (workoutSession s) (exercises s) (currentExerciseIndex s)
     (isWorkoutStarted s) (isPaused s) (workoutTime s) (restTime s)
     (isResting s) (showRestTimer s) x (workoutNotes s).

Definition setWorkoutNotes (x : string) (s : t) : t :=
  mk (template s) (workoutSession s) (exercises s) (currentExerciseIndex s)
     (isWorkoutStarted s) (isPaused s) (workoutTime s) (restTime s)
     (isResting s) (showRestTimer s) (showFinishModal s) x.
End State.

(** ** Loading a template *)

(** [toISOString().split('T')[0]]: the part of the time stamp before the
    first [T]. *)
Fixpoint isoDate (iso : string) : string :=
  match iso with
  | EmptyString => EmptyString
  | String c rest =>
      if Ascii.eqb c "T"%char then EmptyString else String c (isoDate rest)
  end.

Section Loading.

(** [generateId] comes from [@/utils/workoutUtils]; it is taken as a
    generator over some supply [G] of identifiers. *)
Variable G : Type.
Variable generateId : G -> string * G.

(** Computations that draw identifiers. *)
Definition Gen (A : Type) : Type := G -> A * G.

Definition ret {A} (a : A) : Gen A := fun g => (a, g).

Definition bind {A B} (m : Gen A) (k : A -> Gen B) : Gen B :=
  fun g => let (a, g') := m g in k a g'.

Notation "x <- m ;; k" := (bind m (fun x => k))
  (at level 100, m at next level, right associativity).

(** [Array.prototype.map] with a callback that draws identifiers: the
    callback runs on the elements from left to right. *)
Fixpoint mapG {A B} (f : A -> Gen B) (l : list A) : Gen (list B) :=
  match l with
  | [] => ret []
  | a :: l' => b <- f a ;; bs <- mapG f l' ;; ret (b :: bs)
  end.

(** The callback of [sets_config.map]. *)
Definition initializeSet (set : SetConfig.t) : Gen ActiveSet :=
  i <- generateId ;;
  ret {| WorkoutSet.id := i;
         WorkoutSet.reps := SetConfig.reps set;
         WorkoutSet.weight := SetConfig.weight set;
         WorkoutSet.duration := SetConfig.duration set;
         WorkoutSet.restTime := SetConfig.restTime set;
         WorkoutSet.completed := false;
         WorkoutSet.notes := "" |}.

(** The callback of [template.exercises.map]. *)
Definition initializeExercise (te : TemplateExercise.t)
  : Gen ActiveExercise.t :=
  sets <- match TemplateExercise.sets_config te with
          | Some cfg => mapG initializeSet cfg
          | None => ret []
          end ;;
  ret {| ActiveExercise.exerciseId :=
           js_or_string (ExerciseRef.id <$> TemplateExercise.exercise te) "";
         ActiveExercise.exerciseName :=
           js_or_string (ExerciseRef.name <$> TemplateExercise.exercise te)
                        "Unknown";
         ActiveExercise.sets := sets;
         ActiveExercise.currentSetIndex := 0;
         ActiveExercise.notes :=
           js_or_string (TemplateExercise.notes te) "" |}.

(** The list [initializeExercises] passes to [setExercises]. *)
Definition activeExercises (template : WorkoutTemplate.t)
  : Gen (list ActiveExercise.t) :=
  match WorkoutTemplate.exercises template with
  | None => ret []
  | Some [] => ret []
  | Some tes => mapG initializeExercise tes
  end.

Definition initializeExercises (template : WorkoutTemplate.t)
  (s : State.t) : Gen State.t :=
  exs <- activeExercises template ;;
  ret (State.setExercises exs s).

Definition initializeWorkoutSession (now : string)
  (template : WorkoutTemplate.t) (s : State.t) : Gen State.t :=
  i <- generateId ;;
  ret (State.setWorkoutSession
         (Some {| WorkoutSession.id := i;
                  WorkoutSession.clientId := "current-user";
                  WorkoutSession.templateId := WorkoutTemplate.id template;
                  WorkoutSession.date := isoDate now;
                  WorkoutSession.startTime := now;
                  WorkoutSession.endTime := None;
                  WorkoutSession.exercises := [];
                  WorkoutSession.notes := None;
                  WorkoutSession.completed := false;
                  WorkoutSession.synced := false |}) s).

(** The successful branch of [loadTemplate]: [loaded] is the row
    [getWorkoutTemplateById] returned and [fetched] the rows
    [getTemplateExercisesByTemplateId] returns, consulted only when the
    template carries no exercises of its own. *)
Definition loadTemplate (now : string) (loaded : WorkoutTemplate.t)
  (fetched : list TemplateExercise.t) (s : State.t) : Gen State.t :=
  let exercises :=
    match WorkoutTemplate.exercises loaded with
    | None | Some [] => fetched
    | Some tes => tes
    end in
  let template :=
    {| WorkoutTemplate.id := WorkoutTemplate.id loaded;
       WorkoutTemplate.name := WorkoutTemplate.name loaded;
       WorkoutTemplate.exercises := Some exercises |} in
  s1 <- ret (State.setTemplate (Some template) s) ;;
  s2 <- initializeExercises template s1 ;;
  initializeWorkoutSession now loaded s2.

End Loading.

Arguments ret {G A} a.
Arguments bind {G A B} m k.
Arguments mapG {G A B} f l.


(** ** Handlers *)

(** What a call can come to.  [TypeError]: a property of [undefined] is
    read and the exception leaves the handler.  [PastEnd]: the handler
    returns, and its queued updater writes [sets[setIndex]] beyond the end
    of the array; the element is built from [{...undefined, ...}], so it
    lacks whatever keys the partial set lacks and the array stops being an
    [ActiveSet[]].  The embedding does not follow the screen there. *)
Inductive outcome (A : Type) : Type :=
  | Done (a : A)
  | TypeError
  | PastEnd.

Arguments Done {A} a.
Arguments TypeError {A}.
Arguments PastEnd {A}.

#[export] Instance outcome_ret : MRet outcome := fun A a => Done a.

#[export] Instance outcome_bind : MBind outcome := fun A B k m =>
  match m with
  | Done a => k a
  | TypeError => TypeError
  | PastEnd => PastEnd
  end.

(** [a[i]] followed by a property access. *)
Definition at_index {A} (l : list A) (i : nat) : outcome A :=
  match l !! i with
  | Some a => Done a
  | None => TypeError
  end.

Definition startWorkout (s : State.t) : State.t :=
  State.setIsPaused false (State.setIsWorkoutStarted true s).

Definition pauseWorkout (s : State.t) : State.t := State.setIsPaused true s.

Definition resumeWorkout (s : State.t) : State.t := State.setIsPaused false s.

(** [{...old, ...updatedSet, completed: true}]. *)
Definition mergeSet (old : ActiveSet) (updatedSet : PartialSet.t) : ActiveSet :=
  {| WorkoutSet.id := default (WorkoutSet.id old) (PartialSet.id updatedSet);
     WorkoutSet.reps :=
       default (WorkoutSet.reps old) (PartialSet.reps updatedSet);
     WorkoutSet.weight :=
       default (WorkoutSet.weight old) (PartialSet.weight updatedSet);
     WorkoutSet.duration :=
       default (WorkoutSet.duration old) (PartialSet.duration updatedSet);
     WorkoutSet.restTime :=
       default (WorkoutSet.restTime old) (PartialSet.restTime updatedSet);
     WorkoutSet.completed := true;
     WorkoutSet.notes :=
       default (WorkoutSet.notes old) (PartialSet.notes updatedSet) |}.

(** An updater passed to [setExercises]. *)
Definition updater : Type :=
  list ActiveExercise.t -> outcome (list ActiveExercise.t).

(** The first updater of [completeSet]: it replaces
    [updated[exerciseIndex].sets[setIndex]] by the merged set. *)
Definition markCompleted (exerciseIndex setIndex : nat)
  (updatedSet : PartialSet.t) : updater := fun prev =>
  exercise ← at_index prev exerciseIndex;
  match ActiveExercise.sets exercise !! setIndex with
  | None => PastEnd
  | Some old =>
      Done (<[exerciseIndex :=
               ActiveExercise.with_sets
                 (<[setIndex := mergeSet old updatedSet]>
                    (ActiveExercise.sets exercise)) exercise]> prev)
  end.

(** The second updater of [completeSet]:
    [updated[exerciseIndex].currentSetIndex = setIndex + 1]. *)
Definition advanceSet (exerciseIndex setIndex : nat) : updater := fun prev =>
  exercise ← at_index prev exerciseIndex;
  Done (<[exerciseIndex :=
           ActiveExercise.with_currentSetIndex (setIndex + 1) exercise]> prev).

(** Running the queued updaters in order. *)
Fixpoint flush (queue : list updater) (prev : list ActiveExercise.t)
  : outcome (list ActiveExercise.t) :=
  match queue with
  | [] => Done prev
  | u :: queue' => next ← u prev; flush queue' next
  end.

(** [updatedSet.restTime || exercises[exerciseIndex].sets[setIndex].restTime];
    the right operand is only evaluated when the left one is falsy. *)
Definition restTimeSeconds (exercises : list ActiveExercise.t)
  (exerciseIndex setIndex : nat) (updatedSet : PartialSet.t) : outcome jsnum :=
  let given := PartialSet.read (PartialSet.restTime updatedSet) in
  if truthy given then Done given
  else
    exercise ← at_index exercises exerciseIndex;
    set ← at_index (ActiveExercise.sets exercise) setIndex;
    Done (WorkoutSet.restTime set).

(** [if (restTimeSeconds && restTimeSeconds > 0) { ... }]. *)
Definition startRest (seconds : jsnum) (s : State.t) : State.t :=
  if truthy seconds && js_gt0 seconds then
    match seconds with
    | Some z =>
        State.setShowRestTimer true
          (State.setIsResting true (State.setRestTime z s))
    | None => s
    end
  else s.

(** The body of [completeSet]: the state with the plain setters applied,
    and the updaters it queued for [exercises]. *)
Definition completeSet_body (exerciseIndex setIndex : nat)
  (updatedSet : PartialSet.t) (s : State.t)
  : outcome (State.t * list updater) :=
  let exercises := State.exercises s in
  let queue := [markCompleted exerciseIndex setIndex updatedSet] in
  seconds ← restTimeSeconds exercises exerciseIndex setIndex updatedSet;
  let s := startRest seconds s in
  exercise ← at_index exercises exerciseIndex;
  if setIndex <? length (ActiveExercise.sets exercise) - 1 then
    Done (s, queue ++ [advanceSet exerciseIndex setIndex])
  else if exerciseIndex <? length exercises - 1 then
    Done (State.setCurrentExerciseIndex (exerciseIndex + 1) s, queue)
  else
    Done (State.setShowFinishModal true s, queue).

Definition completeSet (exerciseIndex setIndex : nat)
  (updatedSet : PartialSet.t) (s : State.t) : outcome State.t :=
  '(s', queue) ← completeSet_body exerciseIndex setIndex updatedSet s;
  exercises ← flush queue (State.exercises s');
  Done (State.setExercises exercises s').

Definition skipRestTimer (s : State.t) : State.t :=
  State.setRestTime 0 (State.setShowRestTimer false (State.setIsResting false s)).

(** The set of the saved session built from an active set. *)
Definition savedSet (set : ActiveSet) : WorkoutSet.t :=
  {| WorkoutSet.id := WorkoutSet.id set;
     WorkoutSet.reps := WorkoutSet.reps set;
     WorkoutSet.weight := WorkoutSet.weight set;
     WorkoutSet.duration := WorkoutSet.duration set;
     WorkoutSet.restTime := WorkoutSet.restTime set;
     WorkoutSet.completed := WorkoutSet.completed set;
     WorkoutSet.notes := WorkoutSet.notes set |}.

Definition savedExercise (exercise : ActiveExercise.t) : SessionExercise.t :=
  {| SessionExercise.exerciseId := ActiveExercise.exerciseId exercise;
     SessionExercise.sets := savedSet <$> ActiveExercise.sets exercise;
     SessionExercise.notes := ActiveExercise.notes exercise |}.

(** [finishWorkout]: the session handed to [saveSession], or [None] when
    there is no [workoutSession] and the function returns at once.  [now]
    is the time stamp [new Date().toISOString()] reads. *)
Definition finishWorkout (now : string) (s : State.t)
  : option WorkoutSession.t :=
  match State.workoutSession s with
  | None => None
  | Some workoutSession =>
      Some {| WorkoutSession.id := WorkoutSession.id workoutSession;
              WorkoutSession.clientId :=
                WorkoutSession.clientId workoutSession;
              WorkoutSession.templateId :=
                WorkoutSession.templateId workoutSession;
              WorkoutSession.date := WorkoutSession.date workoutSession;
              WorkoutSession.startTime :=
                WorkoutSession.startTime workoutSession;
              WorkoutSession.endTime := Some now;
              WorkoutSession.exercises :=
                savedExercise <$> State.exercises s;
              WorkoutSession.notes := Some (State.workoutNotes s);
              WorkoutSession.completed := true;
              WorkoutSession.synced := WorkoutSession.synced workoutSession |}
  end.

(** ** Timers *)

(** The workout-timer effect keeps an interval installed exactly while
    [isWorkoutStarted && !isPaused]. *)
Definition workoutTimerRunning (s : State.t) : bool :=
  State.isWorkoutStarted s && negb (State.isPaused s).

(** The interval's callback: [setWorkoutTime(prev => prev + 1)]. *)
Definition workoutTimerFire (s : State.t) : State.t :=
  State.setWorkoutTime (State.workoutTime s + 1)%Z s.

(** The rest-timer effect keeps an interval installed exactly while
    [isResting && restTime > 0]. *)
Definition restTimerRunning (s : State.t) : bool :=
  State.isResting s && (0 <? State.restTime s)%Z.

(** The interval's callback, an updater of [restTime] that also clears
    [isResting] and [showRestTimer] when [prev <= 1]. *)
Definition restTimerFire (s : State.t) : State.t :=
  if (State.restTime s <=? 1)%Z then
    State.setRestTime 0
      (State.setShowRestTimer false (State.setIsResting false s))
  else State.setRestTime (State.restTime s - 1)%Z s.

(** One second passes: every installed interval fires once.  The two
    callbacks write disjoint state variables. *)
Definition tick (s : State.t) : State.t :=
  let s := if workoutTimerRunning s then workoutTimerFire s else s in
  if restTimerRunning s then restTimerFire s else s.

(** [d] seconds pass. *)
Definition ticks (d : nat) (s : State.t) : State.t := Nat.iter d tick s.

(** ** The rendered screen *)

(** The exercise on screen: [exercises[currentExerciseIndex]], once past
    the two early returns of the component ("Loading workout..." while
    there is no template, "No exercises found" while the list is empty). *)
Definition currentExercise (s : State.t) : option ActiveExercise.t :=
  match State.template s, State.exercises s with
  | None, _ => None
  | Some _, [] => None
  | Some _, exercises => exercises !! State.currentExerciseIndex s
  end.

(** [onPress] of the Previous Exercise button. *)
Definition previousExercise (s : State.t) : State.t :=
  State.setCurrentExerciseIndex
    (Nat.max 0 (State.currentExerciseIndex s - 1)) s.

(** [onPress] of the Next Exercise button. *)
Definition nextExercise (s : State.t) : State.t :=
  State.setCurrentExerciseIndex
    (Nat.min (length (State.exercises s) - 1)
             (State.currentExerciseIndex s + 1)) s.

(** The check button of row [setIndex] in [renderSetInput]: a completed
    row shows a plain check mark; otherwise the button calls
    [completeSet(currentExerciseIndex, setIndex, set)] and is disabled
    unless the row is the exercise's current set. *)
Definition pressComplete (setIndex : nat) (s : State.t) : outcome State.t :=
  match currentExercise s with
  | None => Done s
  | Some exercise =>
      match ActiveExercise.sets exercise !! setIndex with
      | None => Done s
      | Some set =>
          let isCurrentSet :=
            ActiveExercise.currentSetIndex exercise =? setIndex in
          let isCompleted := WorkoutSet.completed set in
          if isCompleted then Done s
          else if negb isCurrentSet then Done s
          else completeSet (State.currentExerciseIndex s) setIndex
                 (PartialSet.of_set set) s
      end
  end.

(** The three numeric fields a row lets the user edit. *)
Inductive field : Type := Reps | Weight | Rest.

Definition writeField (f : field) (v : jsnum) (set : ActiveSet) : ActiveSet :=
  {| WorkoutSet.id := WorkoutSet.id set;
     WorkoutSet.reps := if f is Reps then v else WorkoutSet.reps set;
     WorkoutSet.weight := if f is Weight then v else WorkoutSet.weight set;
     WorkoutSet.duration := WorkoutSet.duration set;
     WorkoutSet.restTime := if f is Rest then v else WorkoutSet.restTime set;
     WorkoutSet.completed := WorkoutSet.completed set;
     WorkoutSet.notes := WorkoutSet.notes set |}.

(** [onChangeText] of a row's input:
    [updatedExercises[currentExerciseIndex].sets[setIndex].f = parsed || 0].
    [parsed] is what [parseInt]/[parseFloat] made of the text, [None] for
    [NaN]. *)
Definition changeField (f : field) (setIndex : nat) (parsed : jsnum)
  (s : State.t) : outcome State.t :=
  let i := State.currentExerciseIndex s in
  exercise ← at_index (State.exercises s) i;
  set ← at_index (ActiveExercise.sets exercise) setIndex;
  let sets :=
    <[setIndex := writeField f (js_or parsed (Some 0%Z)) set]>
      (ActiveExercise.sets exercise) in
  Done (State.setExercises
          (<[i := ActiveExercise.with_sets sets exercise]> (State.exercises s))
          s).

(** [onChangeText] of the exercise notes. *)
Definition changeExerciseNotes (text : string) (s : State.t)
  : outcome State.t :=
  let i := State.currentExerciseIndex s in
  exercise ← at_index (State.exercises s) i;
  Done (State.setExercises
          (<[i := ActiveExercise.with_notes text exercise]> (State.exercises s))
          s).

(** ** The screen as a transition system *)

(** What can happen to a mounted screen: the two intervals firing and
    the controls the user can operate. *)
Inductive event : Type :=
  | WorkoutTimer
  | RestTimer
  | PressStart
  | PressPauseResume
  | PressComplete (setIndex : nat)
  | ChangeField (f : field) (setIndex : nat) (parsed : jsnum)
  | ChangeExerciseNotes (text : string)
  | PressPrevious
  | PressNext
  | PressFinish
  | CloseFinish
  | ChangeWorkoutNotes (text : string)
  | PressSave (now : string)
  | PressSkipRest
  | PressAddTime
  | CloseRest.

Definition done_or_none {A} (o : outcome A) : option A :=
  match o with
  | Done a => Some a
  | _ => None
  end.

(** A control of the main view: enabled as the JSX says.  The controls
    under an open modal are taken to stay reachable, which can only add
    transitions. *)
Definition control (e : event) (exercise : ActiveExercise.t) (s : State.t)
  : option State.t :=
  match e with
  | PressStart =>
      if State.isWorkoutStarted s then None else Some (startWorkout s)
  | PressPauseResume =>
      if State.isWorkoutStarted s then
        Some (if State.isPaused s then resumeWorkout s else pauseWorkout s)
      else None
  | PressComplete setIndex => done_or_none (pressComplete setIndex s)
  | ChangeField f setIndex parsed =>
      match ActiveExercise.sets exercise !! setIndex with
      | Some set =>
          if WorkoutSet.completed set then None
          else done_or_none (changeField f setIndex parsed s)
      | None => None
      end
  | ChangeExerciseNotes text => done_or_none (changeExerciseNotes text s)
  | PressPrevious =>
      if State.currentExerciseIndex s =? 0 then None
      else Some (previousExercise s)
  | PressNext =>
      if State.currentExerciseIndex s =? length (State.exercises s) - 1
      then None
      else Some (nextExercise s)
  | PressFinish => Some (State.setShowFinishModal true s)
  | CloseFinish =>
      if State.showFinishModal s then Some (State.setShowFinishModal false s)
      else None
  | ChangeWorkoutNotes text =>
      if State.showFinishModal s then Some (State.setWorkoutNotes text s)
      else None
  | PressSave now => if State.showFinishModal s then Some s else None
  | PressSkipRest =>
      if State.showRestTimer s then Some (skipRestTimer s) else None
  | PressAddTime =>
      if State.showRestTimer s
      then Some (State.setRestTime (State.restTime s + 30)%Z s)
      else None
  | CloseRest =>
      if State.showRestTimer s then Some (State.setShowRestTimer false s)
      else None
  | WorkoutTimer | RestTimer => None
  end.

(** One transition; [None] when the event cannot happen in [s]. *)
Definition step (e : event) (s : State.t) : option State.t :=
  match e with
  | WorkoutTimer =>
      if workoutTimerRunning s then Some (workoutTimerFire s) else None
  | RestTimer => if restTimerRunning s then Some (restTimerFire s) else None
  | _ =>
      match currentExercise s with
      | Some exercise => control e exercise s
      | None => None
      end
  end.

Fixpoint run (events : list event) (s : State.t) : option State.t :=
  match events with
  | [] => Some s
  | e :: events' =>
      match step e s with
      | Some s' => run events' s'
      | None => None
      end
  end.

(** The states a screen can be in: mounted, then loaded with some
    template, then driven by events. *)
Definition reachable (s : State.t) : Prop :=
  s = State.mount \/
  exists (G : Type) (generateId : G -> string * G) (g : G)
         (now : string) (loaded : WorkoutTemplate.t)
         (fetched : list TemplateExercise.t) (events : list event),
    run events (fst (loadTemplate G generateId now loaded fetched State.mount g))
      = Some s.


(** ** Displaying a clock *)

(** [n.toString()] of an integer, below the 1e21 from which JavaScript
    switches to exponent notation. *)
Definition toString (n : Z) : string := pretty n.

Fixpoint repeatChar (n : nat) (c : ascii) : string :=
  match n with
  | 0 => EmptyString
  | S n' => String c (repeatChar n' c)
  end.

(** [s.padStart(targetLength, c)] for a pad string of one character. *)
Definition padStart (targetLength : nat) (c : ascii) (s : string) : string :=
  repeatChar (targetLength - String.length s) c +:+ s.

(** [formatTime]: [Math.floor(a / b)] on integers with [b > 0] is [a / b]
    on [Z], and [%] is the remainder with the sign of the dividend,
    [Z.rem]. *)
Definition formatTime (seconds : Z) : string :=
  let hours := (seconds / 3600)%Z in
  let minutes := (Z.rem seconds 3600 / 60)%Z in
  let secs := Z.rem seconds 60 in
  if (0 <? hours)%Z then
    toString hours +:+ ":" +:+ padStart 2 "0" (toString minutes) +:+ ":"
      +:+ padStart 2 "0" (toString secs)
  else
    toString minutes +:+ ":" +:+ padStart 2 "0" (toString secs).

(** * A worked session

    One exercise with two planned sets (10 reps then 30 s of rest, 8 reps
    and no rest), identifiers drawn from a counter. *)

Definition counterId (n : nat) : string * nat :=
  (String (ascii_of_nat (48 + n)) EmptyString, S n).

Definition plannedSet (reps rest : Z) : SetConfig.t :=
  {| SetConfig.reps := Some reps; SetConfig.weight := None;
     SetConfig.duration := None; SetConfig.restTime := Some rest |}.

Definition benchPress : TemplateExercise.t :=
  {| TemplateExercise.exercise :=
       Some {| ExerciseRef.id := "e1"; ExerciseRef.name := "Bench press" |};
     TemplateExercise.sets_config := Some [plannedSet 10 30; plannedSet 8 0];
     TemplateExercise.notes := None |}.

Definition pushDay : WorkoutTemplate.t :=
  {| WorkoutTemplate.id := "t1"; WorkoutTemplate.name := "Push day";
     WorkoutTemplate.exercises := Some [benchPress] |}.

Definition startedAt : string := "2024-05-01T10:00:00.000Z".

Definition loadedPushDay : State.t :=
  fst (loadTemplate nat counterId startedAt pushDay [] State.mount 0).

(** The values a caller hands to [completeSet]: reps and weight only. *)
Definition lifted (reps weight : Z) : PartialSet.t :=
  {| PartialSet.id := None; PartialSet.reps := Some (Some reps);
     PartialSet.weight := Some (Some weight); PartialSet.duration := None;
     PartialSet.restTime := None; PartialSet.completed := None;
     PartialSet.notes := None |}.

(** A template whose only exercise has no planned set. *)
Definition stretching : TemplateExercise.t :=
  {| TemplateExercise.exercise :=
       Some {| ExerciseRef.id := "e2"; ExerciseRef.name := "Stretching" |};
     TemplateExercise.sets_config := Some [];
     TemplateExercise.notes := None |}.

Definition coolDown : WorkoutTemplate.t :=
  {| WorkoutTemplate.id := "t2"; WorkoutTemplate.name := "Cool down";
     WorkoutTemplate.exercises := Some [stretching] |}.

(** ** The worked session, step by step *)

(** The state a call returned, for calls known to return. *)
Definition settled (o : outcome State.t) : State.t :=
  match o with
  | Done s => s
  | _ => State.mount
  end.

(** The [completed] flag of set [setIndex] of exercise [exerciseIndex]. *)
Definition completedAt (exerciseIndex setIndex : nat) (s : State.t)
  : option bool :=
  exercise ← State.exercises s !! exerciseIndex;
  WorkoutSet.completed <$> ActiveExercise.sets exercise !! setIndex.

(** The [reps] of set [setIndex] of exercise [exerciseIndex]. *)
Definition repsAt (exerciseIndex setIndex : nat) (s : State.t)
  : option jsnum :=
  exercise ← State.exercises s !! exerciseIndex;
  WorkoutSet.reps <$> ActiveExercise.sets exercise !! setIndex.

(** The first set done with 10 reps at 50. *)
Definition afterFirstSet : outcome State.t :=
  completeSet 0 0 (lifted 10 50) loadedPushDay.

(** Both sets done. *)
Definition afterBothSets : outcome State.t :=
  s ← afterFirstSet; completeSet 0 1 (lifted 8 55) s.

(** The state in which the user opens the finish modal after the first
    of the two sets. *)
Definition finishingEarly : option State.t :=
  run [PressStart; PressComplete 0; PressFinish] loadedPushDay.

(** The worked session right after its first set: started, resting. *)
Definition restingAfterFirstSet : State.t :=
  default State.mount (run [PressStart; PressComplete 0] loadedPushDay).

(** A template with two exercises, and a session on it in which the
    first set of the first exercise is done. *)
Definition overheadPress : TemplateExercise.t :=
  {| TemplateExercise.exercise :=
       Some {| ExerciseRef.id := "e3"; ExerciseRef.name := "Overhead press" |};
     TemplateExercise.sets_config := Some [plannedSet 6 90; plannedSet 6 90];
     TemplateExercise.notes := None |}.

Definition upperBody : WorkoutTemplate.t :=
  {| WorkoutTemplate.id := "t4"; WorkoutTemplate.name := "Upper body";
     WorkoutTemplate.exercises := Some [benchPress; overheadPress] |}.

Definition upperBodyUnderWay : State.t :=
  default State.mount
    (run [PressStart; PressComplete 0; PressSkipRest]
       (fst (loadTemplate nat counterId startedAt upperBody [] State.mount 0))).

(** A set as [initializeSet] makes it from [plannedSet reps rest]. *)
Definition plannedRow (id : string) (reps rest : Z) : ActiveSet :=
  {| WorkoutSet.id := id; WorkoutSet.reps := Some reps;
     WorkoutSet.weight := None; WorkoutSet.duration := None;
     WorkoutSet.restTime := Some rest; WorkoutSet.completed := false;
     WorkoutSet.notes := "" |}.

(** * Vocabulary of the properties *)

(** What [initializeSet] makes of a planned set, whatever the identifier. *)
Definition copiesConfig (c : SetConfig.t) (set : ActiveSet) : Prop :=
  WorkoutSet.reps set = SetConfig.reps c /\
  WorkoutSet.weight set = SetConfig.weight c /\
  WorkoutSet.duration set = SetConfig.duration c /\
  WorkoutSet.restTime set = SetConfig.restTime c /\
  WorkoutSet.completed set = false /\
  WorkoutSet.notes set = "".

(** The exercise once the first updater of [completeSet] has run. *)
Definition completedSets (set : ActiveSet) (updatedSet : PartialSet.t)
  (setIndex : nat) (exercise : ActiveExercise.t) : ActiveExercise.t :=
  ActiveExercise.with_sets
    (<[setIndex := mergeSet set updatedSet]> (ActiveExercise.sets exercise))
    exercise.

(** Every state variable but the exercise cursor. *)
Definition sameButCursor (s s' : State.t) : Prop :=
  State.template s' = State.template s /\
  State.workoutSession s' = State.workoutSession s /\
  State.exercises s' = State.exercises s /\
  State.isWorkoutStarted s' = State.isWorkoutStarted s /\
  State.isPaused s' = State.isPaused s /\
  State.workoutTime s' = State.workoutTime s /\
  State.restTime s' = State.restTime s /\
  State.isResting s' = State.isResting s /\
  State.showRestTimer s' = State.showRestTimer s /\
  State.showFinishModal s' = State.showFinishModal s /\
  State.workoutNotes s' = State.workoutNotes s.

(** The rest clock is never negative, and is positive while resting. *)
Definition restClockOk (s : State.t) : Prop :=
  (0 <= State.restTime s)%Z /\
  (State.isResting s = true -> (0 < State.restTime s)%Z).

(** The count the finish modal shows as "Sets Completed":
    [exercises.reduce((total, ex) =>
       total + ex.sets.filter(s => s.completed).length, 0)]. *)
Definition setsCompleted (s : State.t) : nat :=
  foldl (fun total ex =>
           total + length (List.filter WorkoutSet.completed
                             (ActiveExercise.sets ex)))
        0 (State.exercises s).

(** What one event of the screen can do to the exercise it shows: complete
    its current set, edit a field of a set that is not completed, or
    replace its notes. *)
Inductive rowEvent (ex : ActiveExercise.t) : ActiveExercise.t -> Prop :=
  | row_completed (si : nat) (set : ActiveSet) :
      ActiveExercise.sets ex !! si = Some set ->
      WorkoutSet.completed set = false ->
      ActiveExercise.currentSetIndex ex = si ->
      rowEvent ex
        (if si <? length (ActiveExercise.sets ex) - 1
         then ActiveExercise.with_currentSetIndex (si + 1)
                (completedSets set (PartialSet.of_set set) si ex)
         else completedSets set (PartialSet.of_set set) si ex)
  | row_edited (si : nat) (set : ActiveSet) (f : field) (v : jsnum) :
      ActiveExercise.sets ex !! si = Some set ->
      WorkoutSet.completed set = false ->
      rowEvent ex
        (ActiveExercise.with_sets
           (<[si := writeField f v set]> (ActiveExercise.sets ex)) ex)
  | row_noted (text : string) :
      rowEvent ex (ActiveExercise.with_notes text ex).


(** What of an exercise is fixed when the template is loaded: its
    identifier, its name and the identifiers of its sets, in order. *)
Definition outline (ex : ActiveExercise.t) : string * string * list string :=
  (ActiveExercise.exerciseId ex, ActiveExercise.exerciseName ex,
   WorkoutSet.id <$> ActiveExercise.sets ex).

(** Closes a conjunction of closed equations by evaluation. *)
Ltac by_evaluation :=
  repeat (split; [vm_compute; reflexivity|]); vm_compute; reflexivity.

(** * Properties of loading *)

Section LoadingFacts.

Variable G : Type.
Variable generateId : G -> string * G.

(** [mapG] relates the two lists element by element, whatever the
    supply each callback ran with. *)
Lemma mapG_Forall2 {A B} (f : A -> Gen G B) (l : list A) (g : G) :
  Forall2 (fun a b => exists g0, b = fst (f a g0)) l (fst (mapG f l g)).
Proof.
  revert g. induction l as [|a l IH]; intros g; cbn.
  - constructor.
  - unfold bind, ret. destruct (f a g) as [b g1] eqn:Hf.
    specialize (IH g1). destruct (mapG f l g1) as [bs g2]. cbn in *.
    constructor; [exists g; by rewrite Hf | exact IH].
Qed.

Lemma mapG_nil_inv {A B} (f : A -> Gen G B) (l : list A) (g : G) :
  fst (mapG f l g) = [] -> l = [].
Proof.
  intros H. pose proof (mapG_Forall2 f l g) as HF. rewrite H in HF.
  by apply Forall2_nil_inv_r in HF.
Qed.

Lemma initializeSet_copies (c : SetConfig.t) (g : G) :
  copiesConfig c (fst (initializeSet G generateId c g)).
Proof.
  unfold initializeSet, bind, ret. destruct (generateId g) as [i g'].
  cbn. by repeat split.
Qed.

Lemma initializeExercise_sets (te : TemplateExercise.t) (g : G) :
  Forall2 copiesConfig (default [] (TemplateExercise.sets_config te))
    (ActiveExercise.sets (fst (initializeExercise G generateId te g))).
Proof.
  unfold initializeExercise, bind, ret.
  destruct (TemplateExercise.sets_config te) as [cfg|]; cbn.
  - pose proof (mapG_Forall2 (initializeSet G generateId) cfg g) as HF.
    destruct (mapG (initializeSet G generateId) cfg g) as [sets g']; cbn in *.
    eapply Forall2_impl; [exact HF|].
    intros c set [g0 ->]. apply initializeSet_copies.
  - constructor.
Qed.

Lemma initializeExercise_head (te : TemplateExercise.t) (g : G) :
  let ex := fst (initializeExercise G generateId te g) in
  ActiveExercise.exerciseId ex =
    js_or_string (ExerciseRef.id <$> TemplateExercise.exercise te) "" /\
  ActiveExercise.exerciseName ex =
    js_or_string (ExerciseRef.name <$> TemplateExercise.exercise te) "Unknown" /\
  ActiveExercise.currentSetIndex ex = 0.
Proof.
  unfold initializeExercise, bind, ret.
  destruct (match TemplateExercise.sets_config te with
            | Some cfg => mapG (initializeSet G generateId) cfg
            | None => fun g0 => ([], g0)
            end g) as [sets g']; cbn. done.
Qed.

Lemma initializeExercises_exercises (template : WorkoutTemplate.t)
  (s : State.t) (g : G) :
  State.exercises (fst (initializeExercises G generateId template s g)) =
  fst (activeExercises G generateId template g).
Proof.
  unfold initializeExercises, bind, ret.
  by destruct (activeExercises G generateId template g).
Qed.

(** C6. For a template whose exercise list is a non-empty array of N
    entries, [initializeExercises] stores exactly N active exercises, in
    template order (the i-th carries the i-th entry's exercise id and
    name); the i-th has exactly as many sets as the i-th entry has planned
    set configurations, the j-th set copying the j-th configuration; every
    set has [completed = false] and every [currentSetIndex] is 0. *)
Theorem initializeExercises_shape (template : WorkoutTemplate.t)
  (tes : list TemplateExercise.t) (s : State.t) (g : G) :
  WorkoutTemplate.exercises template = Some tes ->
  tes <> [] ->
  let exercises :=
    State.exercises (fst (initializeExercises G generateId template s g)) in
  length exercises = length tes /\
  forall (i : nat) (te : TemplateExercise.t),
    tes !! i = Some te ->
    exists exercise : ActiveExercise.t,
      exercises !! i = Some exercise /\
      ActiveExercise.exerciseId exercise =
        js_or_string (ExerciseRef.id <$> TemplateExercise.exercise te) "" /\
      ActiveExercise.exerciseName exercise =
        js_or_string (ExerciseRef.name <$> TemplateExercise.exercise te)
                     "Unknown" /\
      length (ActiveExercise.sets exercise) =
        length (default [] (TemplateExercise.sets_config te)) /\
      Forall2 copiesConfig (default [] (TemplateExercise.sets_config te))
        (ActiveExercise.sets exercise) /\
      Forall (fun set => WorkoutSet.completed set = false)
        (ActiveExercise.sets exercise) /\
      ActiveExercise.currentSetIndex exercise = 0.
Proof.
  intros Htes Hne exercises. subst exercises.
  rewrite initializeExercises_exercises. unfold activeExercises.
  rewrite Htes. destruct tes as [|te0 tes']; [done|].
  set (l := te0 :: tes') in *. clearbody l. clear Hne Htes te0 tes'.
  pose proof (mapG_Forall2 (initializeExercise G generateId) l g) as HF.
  split; [symmetry; by eapply Forall2_length|].
  intros i te Hi.
  destruct (Forall2_lookup_l _ _ _ _ _ HF Hi) as (ex & Hex & g0 & ->).
  exists (fst (initializeExercise G generateId te g0)).
  pose proof (initializeExercise_sets te g0) as Hsets.
  destruct (initializeExercise_head te g0) as (Hid & Hname & Hcur).
  repeat split; try done.
  - symmetry. by eapply Forall2_length.
  - eapply Forall2_Forall_r; [exact Hsets|].
    apply Forall_forall. by intros c _ set (_ & _ & _ & _ & Hc & _).
Qed.

(** C5, as the code has it. [initializeExercises] stores the empty list,
    the "nothing to run" state, exactly when the template's exercise list
    is not an array or is empty.  An entry without planned sets does not
    make it fail. *)
Theorem initializeExercises_empty_iff (template : WorkoutTemplate.t)
  (s : State.t) (g : G) :
  State.exercises (fst (initializeExercises G generateId template s g)) = []
  <-> (WorkoutTemplate.exercises template = None \/
       WorkoutTemplate.exercises template = Some []).
Proof.
  rewrite initializeExercises_exercises. unfold activeExercises.
  destruct (WorkoutTemplate.exercises template) as [[|te tes]|].
  - split; auto.
  - split.
    + intros H. by apply mapG_nil_inv in H.
    + intros [H|H]; discriminate.
  - split; auto.
Qed.

End LoadingFacts.


(** * Properties of [completeSet] *)

(** [startRest] writes the three rest variables only. *)
Lemma startRest_exercises (r : jsnum) (s : State.t) :
  State.exercises (startRest r s) = State.exercises s.
Proof. unfold startRest. destruct (truthy r && js_gt0 r), r; done. Qed.

(** [completeSet] on indices in range, in closed form. *)
Lemma completeSet_in_range (ei si : nat) (upd : PartialSet.t) (s : State.t)
  (ex : ActiveExercise.t) (set : ActiveSet) :
  State.exercises s !! ei = Some ex ->
  ActiveExercise.sets ex !! si = Some set ->
  let r := js_or (PartialSet.read (PartialSet.restTime upd)) (WorkoutSet.restTime set) in
  let ex1 := completedSets set upd si ex in
  completeSet ei si upd s =
    Done (if si <? length (ActiveExercise.sets ex) - 1 then
            State.setExercises
              (<[ei := ActiveExercise.with_currentSetIndex (si + 1) ex1]> (State.exercises s))
              (startRest r s)
          else if ei <? length (State.exercises s) - 1 then
            State.setExercises (<[ei := ex1]> (State.exercises s))
              (State.setCurrentExerciseIndex (ei + 1) (startRest r s))
          else
            State.setExercises (<[ei := ex1]> (State.exercises s))
              (State.setShowFinishModal true (startRest r s))).
Proof.
  intros Hex Hset r ex1.
  assert (Hr : restTimeSeconds (State.exercises s) ei si upd = Done r).
  { unfold restTimeSeconds, r, js_or, at_index.
    destruct (truthy _); [done|]. rewrite Hex. cbn. by rewrite Hset. }
  assert (Hm : markCompleted ei si upd (State.exercises s) = Done (<[ei := ex1]> (State.exercises s))).
  { unfold markCompleted, at_index. rewrite Hex. cbn. by rewrite Hset. }
  unfold completeSet, completeSet_body. rewrite Hr.
  unfold at_index at 1. rewrite Hex.
  cbn [mbind outcome_bind].
  destruct (si <? length (ActiveExercise.sets ex) - 1) eqn:E1;
    [|destruct (ei <? length (State.exercises s) - 1) eqn:E2];
    cbn [mbind outcome_bind flush app State.exercises State.setCurrentExerciseIndex
         State.setShowFinishModal];
    rewrite ?startRest_exercises, Hm; cbn [mbind outcome_bind]; try done.
  unfold advanceSet, at_index.
  rewrite list_lookup_insert_eq by (by eapply lookup_lt_Some).
  cbn [mbind outcome_bind]. by rewrite list_insert_insert_eq.
Qed.

Lemma startRest_positive (r : jsnum) (s : State.t) :
  js_gt0 r = true ->
  exists z, r = Some z /\ (0 < z)%Z /\
    startRest r s =
      State.setShowRestTimer true (State.setIsResting true (State.setRestTime z s)).
Proof.
  destruct r as [z|]; [|done]. cbn. intros Hz. exists z.
  apply Z.ltb_lt in Hz. repeat split; [done|].
  unfold startRest. cbn.
  destruct (z =? 0)%Z eqn:E; [apply Z.eqb_eq in E; lia|].
  cbn. by destruct (0 <? z)%Z eqn:E'; [|apply Z.ltb_ge in E'; lia].
Qed.

Lemma startRest_idle (r : jsnum) (s : State.t) :
  js_gt0 r = false -> startRest r s = s.
Proof. unfold startRest. intros ->. by rewrite andb_false_r. Qed.

(** The parts of the state [completeSet] leaves to [startRest]. *)
Lemma completeSet_rest (ei si : nat) (upd : PartialSet.t) (s : State.t)
  (ex : ActiveExercise.t) (set : ActiveSet) :
  State.exercises s !! ei = Some ex ->
  ActiveExercise.sets ex !! si = Some set ->
  exists s',
    completeSet ei si upd s = Done s' /\
    let idle :=
      startRest (js_or (PartialSet.read (PartialSet.restTime upd))
                       (WorkoutSet.restTime set)) s in
    State.restTime s' = State.restTime idle /\
    State.isResting s' = State.isResting idle /\
    State.showRestTimer s' = State.showRestTimer idle /\
    State.workoutSession s' = State.workoutSession s /\
    State.template s' = State.template s.
Proof.
  intros Hex Hset. rewrite (completeSet_in_range _ _ _ _ _ _ Hex Hset).
  eexists; split; [done|].
  assert (Hws : forall r, State.workoutSession (startRest r s) = State.workoutSession s
                       /\ State.template (startRest r s) = State.template s).
  { intros r. unfold startRest. by destruct (truthy r && js_gt0 r), r. }
  destruct (si <? length (ActiveExercise.sets ex) - 1);
    [|destruct (ei <? length (State.exercises s) - 1)];
    cbn; repeat split; apply Hws.
Qed.

(** [completeSet] only returns on indices in range. *)
Lemma completeSet_Done_inv (ei si : nat) (upd : PartialSet.t)
  (s s' : State.t) :
  completeSet ei si upd s = Done s' ->
  exists ex set,
    State.exercises s !! ei = Some ex /\ ActiveExercise.sets ex !! si = Some set.
Proof.
  destruct (State.exercises s !! ei) as [ex|] eqn:Hex.
  - destruct (ActiveExercise.sets ex !! si) as [set|] eqn:Hset; [eauto|].
    unfold completeSet, completeSet_body, restTimeSeconds, at_index.
    rewrite Hex. cbn [mbind outcome_bind]. rewrite Hset.
    assert (Hm : forall l, markCompleted ei si upd (State.exercises (startRest l s)) = PastEnd).
    { intros l. rewrite startRest_exercises. unfold markCompleted, at_index.
      rewrite Hex. cbn [mbind outcome_bind]. by rewrite Hset. }
    destruct (truthy _); cbn [mbind outcome_bind]; [|done].
    destruct (si <? length (ActiveExercise.sets ex) - 1);
      [|destruct (ei <? length (State.exercises s) - 1)];
      cbn [mbind outcome_bind flush app State.exercises
           State.setCurrentExerciseIndex State.setShowFinishModal];
      rewrite ?Hm; done.
  - unfold completeSet, completeSet_body, restTimeSeconds, at_index.
    rewrite Hex. by destruct (truthy _).
Qed.

(** C10. When the values handed to [completeSet] carry no [restTime], or
    a [restTime] of [undefined] or 0, the effective rest duration is the
    [restTime] stored in the set of the rendered state; a rest interval
    starts ([isResting], [showRestTimer] and [restTime] set to that
    duration) when it is strictly positive, and the three rest variables
    keep their values when it is not. *)
Theorem completeSet_rest_fallback (exerciseIndex setIndex : nat)
  (updatedSet : PartialSet.t) (s : State.t)
  (exercise : ActiveExercise.t) (set : ActiveSet) :
  State.exercises s !! exerciseIndex = Some exercise ->
  ActiveExercise.sets exercise !! setIndex = Some set ->
  (PartialSet.restTime updatedSet = None \/
   PartialSet.restTime updatedSet = Some None \/
   PartialSet.restTime updatedSet = Some (Some 0%Z)) ->
  restTimeSeconds (State.exercises s) exerciseIndex setIndex updatedSet
    = Done (WorkoutSet.restTime set) /\
  exists s',
    completeSet exerciseIndex setIndex updatedSet s = Done s' /\
    (js_gt0 (WorkoutSet.restTime set) = true ->
       State.isResting s' = true /\
       State.showRestTimer s' = true /\
       Some (State.restTime s') = WorkoutSet.restTime set) /\
    (js_gt0 (WorkoutSet.restTime set) = false ->
       State.isResting s' = State.isResting s /\
       State.showRestTimer s' = State.showRestTimer s /\
       State.restTime s' = State.restTime s).
Proof.
  intros Hex Hset Hgiven.
  assert (Hfalsy : truthy (PartialSet.read (PartialSet.restTime updatedSet))
                   = false).
  { by destruct Hgiven as [-> | [-> | ->]]. }
  split.
  - unfold restTimeSeconds, at_index. rewrite Hfalsy, Hex.
    cbn [mbind outcome_bind]. by rewrite Hset.
  - destruct (completeSet_rest exerciseIndex setIndex updatedSet s _ _ Hex Hset)
      as (s' & Hdone & Hrest & Hresting & Hshow & _).
    exists s'. split; [done|].
    unfold js_or in *. rewrite Hfalsy in *.
    rewrite Hrest, Hresting, Hshow. split.
    + intros Hpos.
      destruct (startRest_positive _ s Hpos) as (z & Hz & _ & ->).
      by rewrite Hz.
    + intros Hidle. by rewrite (startRest_idle _ s Hidle).
Qed.

Lemma completeSet_rest_fallback_witness :
  exists s',
    completeSet 0 0 (lifted 10 50) loadedPushDay = Done s' /\
    State.isResting s' = true /\ State.restTime s' = 30%Z.
Proof.
  destruct (completeSet_rest_fallback 0 0 (lifted 10 50) loadedPushDay
              {| ActiveExercise.exerciseId := "e1";
                 ActiveExercise.exerciseName := "Bench press";
                 ActiveExercise.sets :=
                   [ {| WorkoutSet.id := "0"; WorkoutSet.reps := Some 10%Z;
                        WorkoutSet.weight := None;
                        WorkoutSet.duration := None;
                        WorkoutSet.restTime := Some 30%Z;
                        WorkoutSet.completed := false;
                        WorkoutSet.notes := "" |};
                     {| WorkoutSet.id := "1"; WorkoutSet.reps := Some 8%Z;
                        WorkoutSet.weight := None;
                        WorkoutSet.duration := None;
                        WorkoutSet.restTime := Some 0%Z;
                        WorkoutSet.completed := false;
                        WorkoutSet.notes := "" |} ];
                 ActiveExercise.currentSetIndex := 0;
                 ActiveExercise.notes := "" |}
              {| WorkoutSet.id := "0"; WorkoutSet.reps := Some 10%Z;
                 WorkoutSet.weight := None; WorkoutSet.duration := None;
                 WorkoutSet.restTime := Some 30%Z;
                 WorkoutSet.completed := false; WorkoutSet.notes := "" |}
              eq_refl eq_refl (or_introl eq_refl))
    as (_ & s' & Hdone & Hpos & _).
  exists s'. split; [exact Hdone|].
  destruct (Hpos eq_refl) as (Hresting & _ & Htime).
  split; [exact Hresting|]. cbn in Htime. congruence.
Defined.

(** C3 fails as stated: with both sets of the only exercise completed,
    the session's [completed] flag is still [false]. *)
Lemma completeSet_last_keeps_session_open :
  exists s,
    afterBothSets = Done s /\
    completedAt 0 0 s = Some true /\
    completedAt 0 1 s = Some true /\
    (WorkoutSession.completed <$> State.workoutSession s) = Some false.
Proof. exists (settled afterBothSets). by_evaluation. Qed.

(** C3, as the code has it. Completing the final set of the final
    exercise opens the finish modal; the stored session, its [completed]
    flag included, and the exercise cursor stay as they were.  Only the
    record built by [finishWorkout] carries [completed = true]. *)
Theorem completeSet_last_opens_finish (exerciseIndex setIndex : nat)
  (updatedSet : PartialSet.t) (s : State.t)
  (exercise : ActiveExercise.t) (set : ActiveSet) :
  State.exercises s !! exerciseIndex = Some exercise ->
  ActiveExercise.sets exercise !! setIndex = Some set ->
  exerciseIndex = length (State.exercises s) - 1 ->
  setIndex = length (ActiveExercise.sets exercise) - 1 ->
  exists s',
    completeSet exerciseIndex setIndex updatedSet s = Done s' /\
    State.showFinishModal s' = true /\
    State.workoutSession s' = State.workoutSession s /\
    State.currentExerciseIndex s' = State.currentExerciseIndex s /\
    completedAt exerciseIndex setIndex s' = Some true.
Proof.
  intros Hex Hset Hlast_ex Hlast_set.
  rewrite (completeSet_in_range _ _ _ _ _ _ Hex Hset).
  destruct (setIndex <? length (ActiveExercise.sets exercise) - 1) eqn:E1;
    [apply Nat.ltb_lt in E1; lia|].
  destruct (exerciseIndex <? length (State.exercises s) - 1) eqn:E2;
    [apply Nat.ltb_lt in E2; lia|].
  eexists; split; [done|].
  set (r := js_or _ _).
  assert (Hkeep : State.workoutSession (startRest r s) = State.workoutSession s
                  /\ State.currentExerciseIndex (startRest r s)
                     = State.currentExerciseIndex s).
  { unfold startRest. by destruct (truthy r && js_gt0 r), r. }
  cbn. repeat split; try apply Hkeep.
  unfold completedAt. cbn.
  rewrite list_lookup_insert_eq by (by eapply lookup_lt_Some). cbn.
  by rewrite list_lookup_insert_eq by (by eapply lookup_lt_Some).
Qed.

Lemma completeSet_last_opens_finish_witness :
  exists s',
    completeSet 0 0 (lifted 10 50)
      (fst (loadTemplate nat counterId startedAt
              {| WorkoutTemplate.id := "t3"; WorkoutTemplate.name := "Single";
                 WorkoutTemplate.exercises :=
                   Some [ {| TemplateExercise.exercise := None;
                             TemplateExercise.sets_config :=
                               Some [plannedSet 10 30];
                             TemplateExercise.notes := None |} ] |}
              [] State.mount 0)) = Done s' /\
    State.showFinishModal s' = true /\
    (WorkoutSession.completed <$> State.workoutSession s') = Some false.
Proof.
  edestruct (completeSet_last_opens_finish 0 0 (lifted 10 50)
               (fst (loadTemplate nat counterId startedAt
                 {| WorkoutTemplate.id := "t3"; WorkoutTemplate.name := "Single";
                    WorkoutTemplate.exercises :=
                      Some [ {| TemplateExercise.exercise := None;
                                TemplateExercise.sets_config :=
                                  Some [plannedSet 10 30];
                                TemplateExercise.notes := None |} ] |}
                 [] State.mount 0)))
    as (s' & Hdone & Hmodal & Hsession & _);
    [reflexivity | reflexivity | reflexivity | reflexivity |].
  exists s'. split; [exact Hdone|]. split; [exact Hmodal|].
  rewrite Hsession. reflexivity.
Defined.

(** C2 fails as stated: five seconds into the rest that followed the
    first call, a second [completeSet] on the same set returns normally,
    merges the new values and starts a fresh rest interval. *)
Lemma completeSet_twice_changes_state :
  exists s1 s2,
    afterFirstSet = Done s1 /\
    completeSet 0 0 (lifted 12 60) (ticks 5 s1) = Done s2 /\
    completedAt 0 0 s1 = Some true /\
    State.restTime (ticks 5 s1) = 25%Z /\
    State.restTime s2 = 30%Z /\
    repsAt 0 0 (ticks 5 s1) = Some (Some 10%Z) /\
    repsAt 0 0 s2 = Some (Some 12%Z) /\
    s2 <> ticks 5 s1.
Proof.
  exists (settled afterFirstSet).
  exists (settled (completeSet 0 0 (lifted 12 60)
                     (ticks 5 (settled afterFirstSet)))).
  repeat (split; [vm_compute; reflexivity|]).
  intros H. apply (f_equal State.restTime) in H. vm_compute in H.
  discriminate H.
Qed.

(** C2, as the code has it. [completeSet] checks nothing and reports no
    error; the rejection is made by the row that renders the set.  Once
    [completeSet] has returned for a set, the check control of that set's
    row, with its exercise on screen, no longer calls [completeSet]:
    operating it leaves the whole state as it is. *)
Theorem completed_row_is_inert (exerciseIndex setIndex : nat)
  (updatedSet : PartialSet.t) (s s1 : State.t) :
  completeSet exerciseIndex setIndex updatedSet s = Done s1 ->
  completedAt exerciseIndex setIndex s1 = Some true /\
  pressComplete setIndex (State.setCurrentExerciseIndex exerciseIndex s1)
    = Done (State.setCurrentExerciseIndex exerciseIndex s1).
Proof.
  intros Hdone.
  destruct (completeSet_Done_inv _ _ _ _ _ Hdone) as (ex & set & Hex & Hset).
  rewrite (completeSet_in_range _ _ _ _ _ _ Hex Hset) in Hdone.
  assert (Hflag : completedAt exerciseIndex setIndex s1 = Some true).
  { injection Hdone as <-. unfold completedAt.
    pose proof (lookup_lt_Some _ _ _ Hex) as Hlt.
    pose proof (lookup_lt_Some _ _ _ Hset) as Hlt'.
    destruct (setIndex <? length (ActiveExercise.sets ex) - 1);
      [|destruct (exerciseIndex <? length (State.exercises s) - 1)];
      cbn; rewrite list_lookup_insert_eq by done; cbn;
      by rewrite list_lookup_insert_eq by done. }
  split; [exact Hflag|].
  unfold completedAt in Hflag. unfold pressComplete, currentExercise. cbn.
  destruct (State.template s1); [|done].
  destruct (State.exercises s1) as [|e l] eqn:Hl; [done|].
  destruct ((e :: l) !! exerciseIndex) as [ex1|]; [|done].
  cbn in Hflag.
  destruct (ActiveExercise.sets ex1 !! setIndex) as [set1|]; [|done].
  cbn in Hflag. injection Hflag as ->. done.
Qed.

Lemma completed_row_is_inert_witness :
  exists s1,
    afterFirstSet = Done s1 /\
    pressComplete 0 (State.setCurrentExerciseIndex 0 s1)
      = Done (State.setCurrentExerciseIndex 0 s1).
Proof.
  eexists. split; [reflexivity|].
  eapply (completed_row_is_inert 0 0 (lifted 10 50) loadedPushDay).
  reflexivity.
Defined.

(** C4 fails as stated: on the freshly loaded two-set exercise, whose
    current set is 0, [completeSet] on set 1 returns normally and marks
    set 1 completed. *)
Lemma completeSet_off_cursor_completes :
  exists s',
    (ActiveExercise.currentSetIndex <$> State.exercises loadedPushDay !! 0)
      = Some 0 /\
    (length ∘ ActiveExercise.sets <$> State.exercises loadedPushDay !! 0)
      = Some 2 /\
    completedAt 0 1 loadedPushDay = Some false /\
    completeSet 0 1 (lifted 8 55) loadedPushDay = Done s' /\
    completedAt 0 1 s' = Some true /\
    repsAt 0 1 s' = Some (Some 8%Z).
Proof.
  exists (settled (completeSet 0 1 (lifted 8 55) loadedPushDay)).
  by_evaluation.
Qed.

(** C4, as the code has it. [completeSet] does not compare [setIndex]
    with the exercise's [currentSetIndex]; the row does.  The check
    control of a row that is not the current set of the exercise on
    screen is disabled: operating it leaves the whole state as it is. *)
Theorem off_cursor_row_is_disabled (setIndex : nat) (s : State.t)
  (exercise : ActiveExercise.t) :
  currentExercise s = Some exercise ->
  ActiveExercise.currentSetIndex exercise <> setIndex ->
  pressComplete setIndex s = Done s.
Proof.
  intros Hcur Hne. unfold pressComplete. rewrite Hcur.
  destruct (ActiveExercise.sets exercise !! setIndex) as [set|]; [|done].
  destruct (WorkoutSet.completed set); [done|].
  by destruct (Nat.eqb_spec (ActiveExercise.currentSetIndex exercise) setIndex).
Qed.

Lemma off_cursor_row_is_disabled_witness :
  pressComplete 1 loadedPushDay = Done loadedPushDay.
Proof.
  eapply (off_cursor_row_is_disabled 1 loadedPushDay); [reflexivity|].
  cbn. lia.
Defined.

(** * Properties of [finishWorkout] *)

Lemma savedSet_id (set : ActiveSet) : savedSet set = set.
Proof. by destruct set. Qed.

(** C1 fails as stated: finishing after the first of two sets gives a
    record with [completed = true], although the stored session says
    [completed = false] and the record's second set is not completed. *)
Lemma finishWorkout_forces_completed :
  exists s r,
    finishingEarly = Some s /\
    finishWorkout "2024-05-01T10:20:00.000Z" s = Some r /\
    (WorkoutSession.completed <$> State.workoutSession s) = Some false /\
    completedAt 0 1 s = Some false /\
    (WorkoutSet.completed <$>
       (e ← WorkoutSession.exercises r !! 0; SessionExercise.sets e !! 1))
      = Some false /\
    WorkoutSession.completed r = true.
Proof.
  exists (default State.mount finishingEarly).
  exists (default
            {| WorkoutSession.id := ""; WorkoutSession.clientId := "";
               WorkoutSession.templateId := ""; WorkoutSession.date := "";
               WorkoutSession.startTime := ""; WorkoutSession.endTime := None;
               WorkoutSession.exercises := []; WorkoutSession.notes := None;
               WorkoutSession.completed := false;
               WorkoutSession.synced := false |}
            (finishWorkout "2024-05-01T10:20:00.000Z"
               (default State.mount finishingEarly))).
  by_evaluation.
Qed.

(** C1, as the code has it. The record [finishWorkout] hands to
    [saveSession] always carries [completed = true], whatever the sets
    say.  What it reflects faithfully is the sets themselves: every
    exercise of the record has the sets of the session's exercise, each
    with its own [completed] flag; the end time is the time of the call
    and the notes are the workout notes. *)
Theorem finishWorkout_record (now : string) (s : State.t)
  (r : WorkoutSession.t) :
  finishWorkout now s = Some r ->
  WorkoutSession.completed r = true /\
  SessionExercise.sets <$> WorkoutSession.exercises r
    = ActiveExercise.sets <$> State.exercises s /\
  WorkoutSession.endTime r = Some now /\
  WorkoutSession.notes r = Some (State.workoutNotes s) /\
  (WorkoutSession.startTime <$> State.workoutSession s)
    = Some (WorkoutSession.startTime r).
Proof.
  unfold finishWorkout. destruct (State.workoutSession s) as [ws|]; [|done].
  intros [= <-]. cbn. repeat split.
  rewrite <- list_fmap_compose. apply list_fmap_ext.
  intros i ex _. cbn. clear.
  induction (ActiveExercise.sets ex) as [|set l IH]; [done|].
  cbn. by rewrite savedSet_id, IH.
Qed.

Lemma finishWorkout_record_witness :
  exists r,
    finishWorkout "2024-05-01T10:20:00.000Z" loadedPushDay = Some r /\
    WorkoutSession.completed r = true.
Proof.
  eexists. split; [reflexivity|].
  eapply (finishWorkout_record "2024-05-01T10:20:00.000Z" loadedPushDay).
  reflexivity.
Defined.

(** * Properties of navigation *)

(** C9. With the exercise cursor in bounds, the Previous and Next
    exercise actions move the cursor by one, clamped to the list, and
    change nothing else: the exercise list, hence every per-exercise
    [currentSetIndex] and every set's [completed] flag and recorded
    values, is the same list, and so is every other state variable. *)
Theorem navigation_only_moves_cursor (s : State.t) :
  State.currentExerciseIndex s < length (State.exercises s) ->
  let i := State.currentExerciseIndex s in
  let n := length (State.exercises s) in
  sameButCursor s (previousExercise s) /\
  sameButCursor s (nextExercise s) /\
  State.currentExerciseIndex (previousExercise s) = i - 1 /\
  State.currentExerciseIndex (nextExercise s)
    = (if i + 1 <? n then i + 1 else n - 1) /\
  State.currentExerciseIndex (previousExercise s) < n /\
  State.currentExerciseIndex (nextExercise s) < n /\
  (forall s', step PressPrevious s = Some s' \/ step PressNext s = Some s' ->
              State.exercises s' = State.exercises s).
Proof.
  intros Hlt i n. subst i n.
  unfold previousExercise, nextExercise, sameButCursor.
  cbn [State.template State.workoutSession State.exercises
       State.currentExerciseIndex State.isWorkoutStarted State.isPaused
       State.workoutTime State.restTime State.isResting State.showRestTimer
       State.showFinishModal State.workoutNotes State.setCurrentExerciseIndex].
  repeat split; try lia.
  - destruct (Nat.ltb_spec (State.currentExerciseIndex s + 1)
                (length (State.exercises s))); lia.
  - intros s' [H|H]; unfold step in H;
      destruct (currentExercise s); try discriminate;
      cbn [control] in H.
    + destruct (State.currentExerciseIndex s =? 0); [discriminate|].
      by injection H as <-.
    + destruct (State.currentExerciseIndex s =? length (State.exercises s) - 1);
        [discriminate|].
      by injection H as <-.
Qed.

Lemma navigation_only_moves_cursor_witness :
  let s := upperBodyUnderWay in
  (State.currentExerciseIndex s = 0 /\
   completedAt 0 0 s = Some true /\
   (ActiveExercise.currentSetIndex <$> State.exercises s !! 0) = Some 1) /\
  (step PressNext s = Some (nextExercise s) /\
   State.currentExerciseIndex (nextExercise s) = 1 /\
   State.exercises (nextExercise s) = State.exercises s) /\
  (step PressPrevious (nextExercise s) = Some (previousExercise (nextExercise s))
   /\ State.currentExerciseIndex (previousExercise (nextExercise s)) = 0 /\
   State.exercises (previousExercise (nextExercise s)) = State.exercises s).
Proof.
  intros s.
  assert (Hlt : State.currentExerciseIndex s < length (State.exercises s))
    by (vm_compute; lia).
  assert (Hlt' : State.currentExerciseIndex (nextExercise s)
                 < length (State.exercises (nextExercise s)))
    by (vm_compute; lia).
  destruct (navigation_only_moves_cursor s Hlt)
    as (_ & (_ & _ & Hex & _) & _ & Hnext & _ & _ & Hstep).
  destruct (navigation_only_moves_cursor (nextExercise s) Hlt')
    as ((_ & _ & Hex' & _) & _ & Hprev & _ & _ & _ & Hstep').
  split; [|split].
  - repeat (split; [vm_compute; reflexivity|]). vm_compute; reflexivity.
  - split; [vm_compute; reflexivity|]. split; [|exact Hex].
    rewrite Hnext. vm_compute; reflexivity.
  - split; [vm_compute; reflexivity|]. split.
    + rewrite Hprev. vm_compute; reflexivity.
    + rewrite Hex'. exact Hex.
Defined.

(** * Properties of the clocks *)

Lemma tick_gate (s : State.t) :
  State.isWorkoutStarted (tick s) = State.isWorkoutStarted s /\
  State.isPaused (tick s) = State.isPaused s.
Proof.
  unfold tick, workoutTimerFire, restTimerFire.
  destruct (workoutTimerRunning s); destruct (restTimerRunning _);
    try destruct (State.restTime _ <=? 1)%Z; done.
Qed.

Lemma tick_workoutTime (s : State.t) :
  State.workoutTime (tick s) =
  if workoutTimerRunning s then (State.workoutTime s + 1)%Z
  else State.workoutTime s.
Proof.
  unfold tick, workoutTimerFire, restTimerFire.
  destruct (workoutTimerRunning s); destruct (restTimerRunning _);
    try destruct (State.restTime _ <=? 1)%Z; done.
Qed.

Lemma ticks_running (d : nat) (s : State.t) :
  workoutTimerRunning (ticks d s) = workoutTimerRunning s.
Proof.
  induction d as [|d IH]; [done|].
  change (ticks (S d) s) with (tick (ticks d s)).
  unfold workoutTimerRunning in *.
  destruct (tick_gate (ticks d s)) as [-> ->]. exact IH.
Qed.

(** The workout clock after [d] seconds. *)
Lemma ticks_workoutTime (d : nat) (s : State.t) :
  State.workoutTime (ticks d s) =
  if workoutTimerRunning s then (State.workoutTime s + Z.of_nat d)%Z
  else State.workoutTime s.
Proof.
  induction d as [|d IH].
  - cbn. destruct (workoutTimerRunning s); lia.
  - change (ticks (S d) s) with (tick (ticks d s)).
    rewrite tick_workoutTime, ticks_running, IH.
    destruct (workoutTimerRunning s); lia.
Qed.

(** C7. While the workout is not started, no number [d] of one-second
    ticks changes the workout clock; and whenever [d] ticks do change it,
    the workout was started and not paused. *)
Theorem workout_clock_gated (d : nat) (s : State.t) :
  (State.isWorkoutStarted s = false ->
   State.workoutTime (ticks d s) = State.workoutTime s) /\
  (State.workoutTime (ticks d s) <> State.workoutTime s ->
   State.isWorkoutStarted s = true /\ State.isPaused s = false).
Proof.
  rewrite ticks_workoutTime. unfold workoutTimerRunning. split.
  - by intros ->.
  - destruct (State.isWorkoutStarted s), (State.isPaused s); cbn; done.
Qed.

Lemma workout_clock_gated_witness :
  State.workoutTime (ticks 5 loadedPushDay) = State.workoutTime loadedPushDay
  /\ State.isWorkoutStarted (startWorkout loadedPushDay) = true.
Proof.
  split.
  - apply (proj1 (workout_clock_gated 5 loadedPushDay)). reflexivity.
  - apply (proj2 (workout_clock_gated 5 (startWorkout loadedPushDay))).
    vm_compute. discriminate.
Defined.

Lemma restClockOk_startRest (r : jsnum) (s : State.t) :
  restClockOk s -> restClockOk (startRest r s).
Proof.
  intros Hok. destruct (js_gt0 r) eqn:Hr.
  - destruct (startRest_positive r s Hr) as (z & _ & Hz & ->).
    split; cbn; [lia | done].
  - by rewrite startRest_idle.
Qed.

Lemma restClockOk_same (s s' : State.t) :
  State.restTime s' = State.restTime s ->
  State.isResting s' = State.isResting s ->
  restClockOk s -> restClockOk s'.
Proof. unfold restClockOk. by intros -> ->. Qed.

Lemma currentExercise_lookup (s : State.t) (exercise : ActiveExercise.t) :
  currentExercise s = Some exercise ->
  State.exercises s !! State.currentExerciseIndex s = Some exercise.
Proof.
  unfold currentExercise.
  destruct (State.template s); [|done]. by destruct (State.exercises s).
Qed.

Lemma restClockOk_pressComplete (setIndex : nat) (s s' : State.t) :
  pressComplete setIndex s = Done s' -> restClockOk s -> restClockOk s'.
Proof.
  unfold pressComplete. intros Hdone Hok.
  destruct (currentExercise s) as [ex|] eqn:Hcur; [|by injection Hdone as <-].
  destruct (ActiveExercise.sets ex !! setIndex) as [set|] eqn:Hset;
    [|by injection Hdone as <-].
  destruct (WorkoutSet.completed set); [by injection Hdone as <-|].
  destruct (negb _); [by injection Hdone as <-|].
  apply currentExercise_lookup in Hcur.
  destruct (completeSet_rest (State.currentExerciseIndex s) setIndex
              (PartialSet.of_set set) s _ _ Hcur Hset)
    as (s1 & Hs1 & Htime & Hresting & _).
  rewrite Hs1 in Hdone. injection Hdone as <-.
  eapply restClockOk_same; [exact Htime | exact Hresting |].
  by apply restClockOk_startRest.
Qed.

Lemma restClockOk_step (e : event) (s s' : State.t) :
  step e s = Some s' -> restClockOk s -> restClockOk s'.
Proof.
  intros Hstep Hok. unfold step in Hstep.
  destruct e;
    try (destruct (currentExercise s) as [ex|]; [|discriminate];
         cbn [control] in Hstep).
  - destruct (workoutTimerRunning s); [|discriminate].
    injection Hstep as <-. exact Hok.
  - unfold restTimerRunning in Hstep.
    destruct (State.isResting s); [|discriminate].
    destruct (Z.ltb_spec 0 (State.restTime s)); [|discriminate].
    injection Hstep as <-. unfold restTimerFire.
    destruct (Z.leb_spec (State.restTime s) 1); split; cbn; try done; lia.
  - destruct (State.isWorkoutStarted s); [discriminate|].
    injection Hstep as <-. exact Hok.
  - destruct (State.isWorkoutStarted s); [|discriminate].
    injection Hstep as <-. by destruct (State.isPaused s).
  - destruct (pressComplete setIndex s) as [s1| |] eqn:Hp; try discriminate.
    injection Hstep as <-. by eapply restClockOk_pressComplete.
  - destruct (ActiveExercise.sets ex !! setIndex) as [set|]; [|discriminate].
    destruct (WorkoutSet.completed set); [discriminate|].
    unfold changeField, at_index in Hstep.
    destruct (State.exercises s !! State.currentExerciseIndex s) as [ex'|];
      [|discriminate].
    cbn [mbind outcome_bind] in Hstep.
    destruct (ActiveExercise.sets ex' !! setIndex); [|discriminate].
    injection Hstep as <-. exact Hok.
  - unfold changeExerciseNotes, at_index in Hstep.
    destruct (State.exercises s !! State.currentExerciseIndex s);
      [|discriminate].
    injection Hstep as <-. exact Hok.
  - destruct (State.currentExerciseIndex s =? 0); [discriminate|].
    injection Hstep as <-. exact Hok.
  - destruct (State.currentExerciseIndex s =? length (State.exercises s) - 1);
      [discriminate|].
    injection Hstep as <-. exact Hok.
  - injection Hstep as <-. exact Hok.
  - destruct (State.showFinishModal s); [|discriminate].
    injection Hstep as <-. exact Hok.
  - destruct (State.showFinishModal s); [|discriminate].
    injection Hstep as <-. exact Hok.
  - destruct (State.showFinishModal s); [|discriminate].
    injection Hstep as <-. exact Hok.
  - destruct (State.showRestTimer s); [|discriminate].
    injection Hstep as <-. split; cbn; [lia | done].
  - destruct (State.showRestTimer s); [|discriminate].
    injection Hstep as <-. destruct Hok as [H0 H1]. split; cbn; [lia|].
    intros _. lia.
  - destruct (State.showRestTimer s); [|discriminate].
    injection Hstep as <-. exact Hok.
Qed.

Lemma restClockOk_run (events : list event) (s s' : State.t) :
  run events s = Some s' -> restClockOk s -> restClockOk s'.
Proof.
  revert s. induction events as [|e events IH]; intros s Hrun Hok.
  - by injection Hrun as <-.
  - cbn in Hrun. destruct (step e s) as [s1|] eqn:Hstep; [|discriminate].
    eapply IH; [exact Hrun|]. by eapply restClockOk_step.
Qed.

Lemma restClockOk_loadTemplate (G : Type) (generateId : G -> string * G)
  (g : G) (now : string) (loaded : WorkoutTemplate.t)
  (fetched : list TemplateExercise.t) :
  restClockOk (fst (loadTemplate G generateId now loaded fetched State.mount g)).
Proof.
  unfold loadTemplate, initializeExercises, initializeWorkoutSession, bind, ret.
  destruct (activeExercises _ _ _ _) as [exs g1].
  destruct (generateId g1) as [i g2]. split; cbn; [lia | done].
Qed.

Lemma restClockOk_reachable (s : State.t) : reachable s -> restClockOk s.
Proof.
  intros [-> | (G & generateId & g & now & loaded & fetched & events & Hrun)].
  - split; cbn; [lia | done].
  - eapply restClockOk_run; [exact Hrun|]. apply restClockOk_loadTemplate.
Qed.

(** C8. In every reachable state, resting implies a rest clock that is
    not negative; a firing of the rest timer leaves the clock
    non-negative and, when it brings the clock to 0, clears [isResting];
    and no reachable state is resting with the clock at 0. *)
Theorem rest_clock_invariant (s : State.t) :
  reachable s ->
  (State.isResting s = true -> (0 <= State.restTime s)%Z) /\
  (State.restTime s = 0%Z -> State.isResting s = false) /\
  (forall s',
     step RestTimer s = Some s' ->
     (0 <= State.restTime s')%Z /\
     (State.restTime s' = 0%Z -> State.isResting s' = false)).
Proof.
  intros Hreach. pose proof (restClockOk_reachable s Hreach) as [H0 Hpos].
  split; [done|]. split.
  - intros Hz. destruct (State.isResting s); [|done].
    specialize (Hpos eq_refl). lia.
  - intros s' Hstep.
    assert (Hok : restClockOk s')
      by (eapply restClockOk_step; [exact Hstep | by split]).
    destruct Hok as [H0' Hpos']. split; [done|].
    intros Hz. destruct (State.isResting s'); [|done].
    specialize (Hpos' eq_refl). lia.
Qed.

Lemma restingAfterFirstSet_reachable : reachable restingAfterFirstSet.
Proof.
  right. exists nat, counterId, 0, startedAt, pushDay, [],
    [PressStart; PressComplete 0].
  vm_compute. reflexivity.
Defined.

Lemma rest_clock_invariant_witness :
  (State.isResting restingAfterFirstSet = true ->
   (0 <= State.restTime restingAfterFirstSet)%Z) /\
  State.restTime restingAfterFirstSet = 30%Z.
Proof.
  split.
  - exact (proj1 (rest_clock_invariant restingAfterFirstSet
                    restingAfterFirstSet_reachable)).
  - reflexivity.
Defined.

(** * The worked session against the model *)

Example worked_session_first_set :
  State.isResting restingAfterFirstSet = true /\
  State.restTime restingAfterFirstSet = 30%Z /\
  completedAt 0 0 restingAfterFirstSet = Some true /\
  (ActiveExercise.currentSetIndex <$>
     State.exercises restingAfterFirstSet !! 0) = Some 1.
Proof. by_evaluation. Qed.

Example worked_session_second_set :
  let s := default State.mount (step (PressComplete 1) restingAfterFirstSet) in
  completedAt 0 1 s = Some true /\
  State.isResting s = true /\
  State.restTime s = 30%Z /\
  State.showFinishModal s = true.
Proof. by_evaluation. Qed.

(** * Loading, on the worked templates *)

Lemma initializeExercises_shape_witness :
  length (State.exercises
            (fst (initializeExercises nat counterId pushDay State.mount 0)))
  = length [benchPress].
Proof.
  refine (proj1 (initializeExercises_shape nat counterId pushDay [benchPress]
                   State.mount 0 eq_refl _)).
  discriminate.
Defined.

(** C5 fails as stated: the only entry of [coolDown] has zero planned
    sets, yet loading it gives a non-empty exercise list and a screen
    with that exercise, without sets, on it. *)
Lemma zero_sets_entry_still_loads :
  WorkoutTemplate.exercises coolDown = Some [stretching] /\
  TemplateExercise.sets_config stretching = Some [] /\
  length (State.exercises
            (fst (initializeExercises nat counterId coolDown State.mount 0)))
    = 1 /\
  (ActiveExercise.sets <$>
     currentExercise
       (fst (loadTemplate nat counterId startedAt coolDown [] State.mount 0)))
    = Some [].
Proof. by_evaluation. Qed.

Lemma initializeExercises_empty_iff_witness :
  State.exercises
    (fst (initializeExercises nat counterId
            {| WorkoutTemplate.id := "t0"; WorkoutTemplate.name := "Empty";
               WorkoutTemplate.exercises := Some [] |}
            State.mount 0)) = [].
Proof.
  apply (proj2 (initializeExercises_empty_iff nat counterId
                  {| WorkoutTemplate.id := "t0";
                     WorkoutTemplate.name := "Empty";
                     WorkoutTemplate.exercises := Some [] |}
                  State.mount 0)).
  right. reflexivity.
Defined.

(** * Further properties of the clocks *)

(** Reads a state variable through the setters in front of it. *)
Ltac read_state :=
  cbn [State.template State.workoutSession State.exercises
       State.currentExerciseIndex State.isWorkoutStarted State.isPaused
       State.workoutTime State.restTime State.isResting State.showRestTimer
       State.showFinishModal State.workoutNotes
       State.setTemplate State.setWorkoutSession State.setExercises
       State.setCurrentExerciseIndex State.setIsWorkoutStarted
       State.setIsPaused State.setWorkoutTime State.setRestTime
       State.setIsResting State.setShowRestTimer State.setShowFinishModal
       State.setWorkoutNotes] in *.

Lemma ticks_gate (d : nat) (s : State.t) :
  State.isWorkoutStarted (ticks d s) = State.isWorkoutStarted s /\
  State.isPaused (ticks d s) = State.isPaused s.
Proof.
  induction d as [|d [IHs IHp]]; [done|].
  change (ticks (S d) s) with (tick (ticks d s)).
  destruct (tick_gate (ticks d s)) as [-> ->]. done.
Qed.

Lemma tick_rest (s : State.t) :
  State.restTime (tick s) =
    (if restTimerRunning s
     then (if (State.restTime s <=? 1)%Z then 0%Z else (State.restTime s - 1)%Z)
     else State.restTime s) /\
  State.isResting (tick s) =
    (if restTimerRunning s && (State.restTime s <=? 1)%Z then false
     else State.isResting s).
Proof.
  unfold tick, workoutTimerFire, restTimerFire, restTimerRunning.
  destruct (workoutTimerRunning s); read_state;
    destruct (State.isResting s) eqn:Hresting, (0 <? State.restTime s)%Z,
      (State.restTime s <=? 1)%Z.
  all: cbn [andb]; read_state; by rewrite ?Hresting.
Qed.



(** After Skip Rest, whatever the state was, the rest clock reads 0 and
    [isResting] is false, and no number of ticks changes either. *)
Theorem skipRestTimer_settles (d : nat) (s : State.t) :
  State.restTime (ticks d (skipRestTimer s)) = 0%Z /\
  State.isResting (ticks d (skipRestTimer s)) = false /\
  skipRestTimer (skipRestTimer s) = skipRestTimer s.
Proof.
  split; [|split]; [| |done].
  - induction d as [|d IH]; [done|].
    change (ticks (S d) (skipRestTimer s))
      with (tick (ticks d (skipRestTimer s))).
    destruct (tick_rest (ticks d (skipRestTimer s))) as [-> _].
    unfold restTimerRunning. rewrite IH. cbn. by rewrite andb_false_r.
  - induction d as [|d IH]; [done|].
    change (ticks (S d) (skipRestTimer s))
      with (tick (ticks d (skipRestTimer s))).
    destruct (tick_rest (ticks d (skipRestTimer s))) as [_ ->].
    unfold restTimerRunning. rewrite IH. done.
Qed.

(** On a running workout the clock counts the seconds spent running and
    none of those spent paused: [a] seconds, a pause of [p] seconds and
    [b] more seconds after resuming add [a + b]. *)
Theorem pause_freezes_workout_clock (a p b : nat) (s : State.t) :
  State.isWorkoutStarted s = true ->
  State.isPaused s = false ->
  State.workoutTime
    (ticks b (resumeWorkout (ticks p (pauseWorkout (ticks a s)))))
  = (State.workoutTime s + Z.of_nat a + Z.of_nat b)%Z.
Proof.
  intros Hs Hp.
  rewrite ticks_workoutTime. unfold workoutTimerRunning.
  cbn [resumeWorkout State.setIsPaused State.isWorkoutStarted State.isPaused
       State.workoutTime negb andb].
  destruct (ticks_gate p (pauseWorkout (ticks a s))) as [-> _].
  cbn [pauseWorkout State.setIsPaused State.isWorkoutStarted].
  destruct (ticks_gate a s) as [-> _]. rewrite Hs. cbn [andb].
  rewrite ticks_workoutTime. unfold workoutTimerRunning.
  cbn [pauseWorkout State.setIsPaused State.isWorkoutStarted State.isPaused
       State.workoutTime negb andb].
  rewrite andb_false_r, ticks_workoutTime. unfold workoutTimerRunning.
  by rewrite Hs, Hp.
Qed.

Lemma pause_freezes_workout_clock_witness :
  State.workoutTime
    (ticks 7 (resumeWorkout
                (ticks 60 (pauseWorkout (ticks 5 upperBodyUnderWay)))))
  = 12%Z.
Proof.
  rewrite (pause_freezes_workout_clock 5 60 7 upperBodyUnderWay);
    reflexivity.
Defined.

(** * Further properties of navigation *)

(** Next then Previous, and Previous then Next, lead back to the same
    state whenever the first of the two buttons is enabled with the
    cursor in bounds. *)
Theorem navigation_round_trip (s : State.t) :
  (State.currentExerciseIndex s + 1 < length (State.exercises s) ->
   previousExercise (nextExercise s) = s) /\
  (0 < State.currentExerciseIndex s < length (State.exercises s) ->
   nextExercise (previousExercise s) = s).
Proof.
  unfold previousExercise, nextExercise.
  destruct s as [? ? exs i ? ? ? ? ? ? ? ?].
  unfold State.setCurrentExerciseIndex. read_state.
  split; intros H; f_equal; lia.
Qed.

Lemma navigation_round_trip_witness :
  previousExercise (nextExercise upperBodyUnderWay) = upperBodyUnderWay /\
  State.currentExerciseIndex (nextExercise upperBodyUnderWay) = 1.
Proof.
  split; [|reflexivity].
  apply (proj1 (navigation_round_trip upperBodyUnderWay)).
  vm_compute. lia.
Defined.


(** * What an event does to the exercises *)

Lemma step_exercises (e : event) (s s' : State.t) :
  step e s = Some s' ->
  State.exercises s' = State.exercises s \/
  exists ex ex',
    State.exercises s !! State.currentExerciseIndex s = Some ex /\
    rowEvent ex ex' /\
    State.exercises s' = <[State.currentExerciseIndex s := ex']> (State.exercises s).
Proof.
  intros Hstep. unfold step in Hstep.
  destruct e;
    try (destruct (currentExercise s) as [ex|] eqn:Hcur; [|discriminate];
         cbn [control] in Hstep).
  - destruct (workoutTimerRunning s); [|discriminate].
    injection Hstep as <-. by left.
  - destruct (restTimerRunning s); [|discriminate].
    injection Hstep as <-. left. unfold restTimerFire.
    by destruct (State.restTime s <=? 1)%Z.
  - destruct (State.isWorkoutStarted s); [discriminate|].
    injection Hstep as <-. by left.
  - destruct (State.isWorkoutStarted s); [|discriminate].
    injection Hstep as <-. left. by destruct (State.isPaused s).
  - unfold pressComplete in Hstep. rewrite Hcur in Hstep.
    apply currentExercise_lookup in Hcur.
    destruct (ActiveExercise.sets ex !! setIndex) as [set|] eqn:Hset;
      [|injection Hstep as <-; by left].
    destruct (WorkoutSet.completed set) eqn:Hdone;
      [injection Hstep as <-; by left|].
    destruct (Nat.eqb_spec (ActiveExercise.currentSetIndex ex) setIndex)
      as [Hsi|]; [|injection Hstep as <-; by left].
    cbn [negb] in Hstep.
    rewrite (completeSet_in_range _ _ _ _ _ _ Hcur Hset) in Hstep.
    cbn [done_or_none] in Hstep. injection Hstep as <-.
    right. exists ex. eexists. split; [exact Hcur|].
    split; [exact (row_completed ex setIndex set Hset Hdone Hsi)|].
    destruct (setIndex <? length (ActiveExercise.sets ex) - 1);
      [|destruct (State.currentExerciseIndex s <? length (State.exercises s) - 1)];
      done.
  - apply currentExercise_lookup in Hcur.
    destruct (ActiveExercise.sets ex !! setIndex) as [set|] eqn:Hset;
      [|discriminate].
    destruct (WorkoutSet.completed set) eqn:Hdone; [discriminate|].
    unfold changeField, at_index in Hstep. rewrite Hcur in Hstep.
    cbn [mbind outcome_bind] in Hstep. rewrite Hset in Hstep.
    cbn [mbind outcome_bind done_or_none] in Hstep. injection Hstep as <-.
    right. exists ex. eexists. split; [exact Hcur|].
    split; [exact (row_edited ex setIndex set f (js_or parsed (Some 0%Z))
                     Hset Hdone)|]. done.
  - apply currentExercise_lookup in Hcur.
    unfold changeExerciseNotes, at_index in Hstep. rewrite Hcur in Hstep.
    cbn [mbind outcome_bind done_or_none] in Hstep. injection Hstep as <-.
    right. exists ex. eexists. split; [exact Hcur|].
    split; [exact (row_noted ex text)|]. done.
  - destruct (State.currentExerciseIndex s =? 0); [discriminate|].
    injection Hstep as <-. by left.
  - destruct (State.currentExerciseIndex s =? length (State.exercises s) - 1);
      [discriminate|].
    injection Hstep as <-. by left.
  - injection Hstep as <-. by left.
  - destruct (State.showFinishModal s); [|discriminate].
    injection Hstep as <-. by left.
  - destruct (State.showFinishModal s); [|discriminate].
    injection Hstep as <-. by left.
  - destruct (State.showFinishModal s); [|discriminate].
    injection Hstep as <-. by left.
  - destruct (State.showRestTimer s); [|discriminate].
    injection Hstep as <-. by left.
  - destruct (State.showRestTimer s); [|discriminate].
    injection Hstep as <-. by left.
  - destruct (State.showRestTimer s); [|discriminate].
    injection Hstep as <-. by left.
Qed.

Lemma mergeSet_of_set (set : ActiveSet) :
  mergeSet set (PartialSet.of_set set) = writeField Reps (WorkoutSet.reps set)
    {| WorkoutSet.id := WorkoutSet.id set; WorkoutSet.reps := WorkoutSet.reps set;
       WorkoutSet.weight := WorkoutSet.weight set;
       WorkoutSet.duration := WorkoutSet.duration set;
       WorkoutSet.restTime := WorkoutSet.restTime set;
       WorkoutSet.completed := true; WorkoutSet.notes := WorkoutSet.notes set |}.
Proof. done. Qed.

Lemma fmap_insert_same {A B} (f : A -> B) (l : list A) (i : nat) (x y : A) :
  l !! i = Some x -> f y = f x -> f <$> <[i := y]> l = f <$> l.
Proof.
  intros Hx Hf. rewrite list_fmap_insert, Hf.
  apply list_insert_id. by rewrite list_lookup_fmap, Hx.
Qed.

Lemma rowEvent_outline (ex ex' : ActiveExercise.t) :
  rowEvent ex ex' -> outline ex' = outline ex.
Proof.
  intros [si set Hset _ _ | si set f v Hset _ | text]; unfold outline.
  - assert (Hids : WorkoutSet.id <$>
                     <[si := mergeSet set (PartialSet.of_set set)]>
                       (ActiveExercise.sets ex)
                   = WorkoutSet.id <$> ActiveExercise.sets ex)
      by (by eapply fmap_insert_same).
    destruct (si <? length (ActiveExercise.sets ex) - 1); cbn;
      by rewrite Hids.
  - cbn. f_equal. by eapply fmap_insert_same.
  - done.
Qed.

Lemma rowEvent_locked (ex ex' : ActiveExercise.t) (j : nat) (set0 : ActiveSet) :
  rowEvent ex ex' ->
  ActiveExercise.sets ex !! j = Some set0 ->
  WorkoutSet.completed set0 = true ->
  ActiveExercise.sets ex' !! j = Some set0.
Proof.
  intros [si set Hset Hopen _ | si set f v Hset Hopen | text] Hj Hdone.
  - assert (si <> j) by (intros ->; congruence).
    destruct (si <? length (ActiveExercise.sets ex) - 1); cbn;
      by rewrite list_lookup_insert_ne.
  - assert (si <> j) by (intros ->; congruence).
    cbn. by rewrite list_lookup_insert_ne.
  - done.
Qed.




Lemma loadTemplate_exercises (G : Type) (generateId : G -> string * G)
  (g : G) (now : string) (loaded : WorkoutTemplate.t)
  (fetched : list TemplateExercise.t) :
  let s0 := fst (loadTemplate G generateId now loaded fetched State.mount g) in
  (exists (tes : list TemplateExercise.t) (g0 : G),
     State.exercises s0 = fst (mapG (initializeExercise G generateId) tes g0))
  /\ State.currentExerciseIndex s0 = 0.
Proof.
  unfold loadTemplate, initializeExercises, initializeWorkoutSession,
    activeExercises, bind, ret.
  destruct (WorkoutTemplate.exercises loaded) as [[|te tes']|];
    [destruct fetched as [|te tes'] | | destruct fetched as [|te tes']];
    cbn [WorkoutTemplate.exercises]; cbv beta iota.
  1,4: destruct (generateId g) as [i g']; split; [by exists [], g | done].
  all: destruct (mapG (initializeExercise G generateId) (te :: tes') g)
         as [exs g1] eqn:Hmap;
       destruct (generateId g1) as [i g2]; split; [|done];
       exists (te :: tes'), g; by rewrite Hmap.
Qed.




(** No event of the screen changes which exercises there are, their
    names, or which sets each one has: along any run, the list of
    (exercise id, exercise name, set ids) is the one the run started
    with. *)
Theorem outline_is_fixed (events : list event) (s s' : State.t) :
  run events s = Some s' ->
  outline <$> State.exercises s' = outline <$> State.exercises s.
Proof.
  revert s. induction events as [|e events IH]; intros s Hrun.
  - by injection Hrun as <-.
  - cbn in Hrun. destruct (step e s) as [s1|] eqn:Hstep; [|discriminate].
    rewrite (IH s1 Hrun).
    destruct (step_exercises e s s1 Hstep)
      as [-> | (ex & ex' & Hex & Hrow & ->)]; [done|].
    eapply fmap_insert_same; [exact Hex|]. by apply rowEvent_outline.
Qed.

Lemma outline_is_fixed_witness :
  outline <$> State.exercises upperBodyUnderWay
  = [("e1", "Bench press", ["0"; "1"]); ("e3", "Overhead press", ["2"; "3"])].
Proof.
  rewrite (outline_is_fixed [PressStart; PressComplete 0; PressSkipRest]
             (fst (loadTemplate nat counterId startedAt upperBody []
                     State.mount 0))
             upperBodyUnderWay);
    vm_compute; reflexivity.
Defined.

(** A completed set is locked: along any run of the screen, a set that
    is completed stays in its place with its [completed] flag and every
    recorded value as they were. *)
Theorem completed_set_is_locked (events : list event) (s s' : State.t)
  (i j : nat) (set : ActiveSet) :
  run events s = Some s' ->
  (ex ← State.exercises s !! i; ActiveExercise.sets ex !! j) = Some set ->
  WorkoutSet.completed set = true ->
  (ex ← State.exercises s' !! i; ActiveExercise.sets ex !! j) = Some set.
Proof.
  revert s. induction events as [|e events IH]; intros s Hrun Hset Hdone.
  - by injection Hrun as <-.
  - cbn in Hrun. destruct (step e s) as [s1|] eqn:Hstep; [|discriminate].
    apply (IH s1 Hrun); [|done].
    destruct (step_exercises e s s1 Hstep)
      as [-> | (ex & ex' & Hex & Hrow & ->)]; [done|].
    destruct (decide (State.currentExerciseIndex s = i)) as [<-|Hne].
    + rewrite Hex in Hset. cbn in Hset.
      rewrite list_lookup_insert_eq by (by eapply lookup_lt_Some). cbn.
      by eapply rowEvent_locked.
    + by rewrite list_lookup_insert_ne.
Qed.

Lemma completed_set_is_locked_witness :
  (ex ← State.exercises
          (default State.mount
             (run [PressNext; ChangeField Reps 0 (Some 5%Z); PressPrevious;
                   PressComplete 1]
                upperBodyUnderWay)) !! 0;
   ActiveExercise.sets ex !! 0)
  = Some {| WorkoutSet.id := "0"; WorkoutSet.reps := Some 10%Z;
            WorkoutSet.weight := None; WorkoutSet.duration := None;
            WorkoutSet.restTime := Some 30%Z; WorkoutSet.completed := true;
            WorkoutSet.notes := "" |}.
Proof.
  apply (completed_set_is_locked
           [PressNext; ChangeField Reps 0 (Some 5%Z); PressPrevious;
            PressComplete 1]
           upperBodyUnderWay);
    vm_compute; reflexivity.
Defined.

(** What an event leaves alone besides the exercises: the stored session
    and template, and an exercise cursor that either stays, moves back,
    or moves to an exercise that exists. *)
Lemma step_frame (e : event) (s s' : State.t) :
  step e s = Some s' ->
  State.workoutSession s' = State.workoutSession s /\
  State.template s' = State.template s /\
  (State.currentExerciseIndex s' <= State.currentExerciseIndex s \/
   State.currentExerciseIndex s' < length (State.exercises s)).
Proof.
  intros Hstep. unfold step in Hstep.
  destruct e;
    try (destruct (currentExercise s) as [ex|] eqn:Hcur; [|discriminate];
         cbn [control] in Hstep).
  - destruct (workoutTimerRunning s); [|discriminate].
    injection Hstep as <-. repeat split. by left.
  - destruct (restTimerRunning s); [|discriminate].
    injection Hstep as <-. unfold restTimerFire.
    destruct (State.restTime s <=? 1)%Z; repeat split; by left.
  - destruct (State.isWorkoutStarted s); [discriminate|].
    injection Hstep as <-. repeat split. by left.
  - destruct (State.isWorkoutStarted s); [|discriminate].
    injection Hstep as <-. destruct (State.isPaused s); repeat split; by left.
  - unfold pressComplete in Hstep. rewrite Hcur in Hstep.
    apply currentExercise_lookup in Hcur.
    destruct (ActiveExercise.sets ex !! setIndex) as [set|] eqn:Hset;
      [|injection Hstep as <-; repeat split; by left].
    destruct (WorkoutSet.completed set);
      [injection Hstep as <-; repeat split; by left|].
    destruct (negb _); [injection Hstep as <-; repeat split; by left|].
    destruct (completeSet_rest _ setIndex (PartialSet.of_set set) s _ _
                Hcur Hset) as (s1 & Hs1 & _ & _ & _ & Hws & Htpl).
    rewrite Hs1 in Hstep. injection Hstep as <-.
    split; [done|]. split; [done|].
    rewrite (completeSet_in_range _ _ _ _ _ _ Hcur Hset) in Hs1.
    injection Hs1 as <-.
    set (r := js_or _ _).
    assert (Hc : State.currentExerciseIndex (startRest r s)
                 = State.currentExerciseIndex s).
    { unfold startRest. by destruct (truthy r && js_gt0 r), r. }
    destruct (setIndex <? length (ActiveExercise.sets ex) - 1);
      [|destruct (Nat.ltb_spec (State.currentExerciseIndex s)
                    (length (State.exercises s) - 1))];
      read_state; unfold State.setExercises, State.setCurrentExerciseIndex,
        State.setShowFinishModal; read_state; lia.
  - destruct (ActiveExercise.sets ex !! setIndex) as [set|]; [|discriminate].
    destruct (WorkoutSet.completed set); [discriminate|].
    unfold changeField, at_index in Hstep.
    destruct (State.exercises s !! State.currentExerciseIndex s) as [ex'|];
      [|discriminate].
    cbn [mbind outcome_bind] in Hstep.
    destruct (ActiveExercise.sets ex' !! setIndex); [|discriminate].
    injection Hstep as <-. repeat split. by left.
  - unfold changeExerciseNotes, at_index in Hstep.
    destruct (State.exercises s !! State.currentExerciseIndex s);
      [|discriminate].
    injection Hstep as <-. repeat split. by left.
  - destruct (State.currentExerciseIndex s =? 0); [discriminate|].
    injection Hstep as <-. repeat split. left. cbn. lia.
  - destruct (State.currentExerciseIndex s =? length (State.exercises s) - 1);
      [discriminate|].
    injection Hstep as <-. repeat split. right.
    apply currentExercise_lookup, lookup_lt_Some in Hcur.
    unfold nextExercise, State.setCurrentExerciseIndex. read_state. lia.
  - injection Hstep as <-. repeat split. by left.
  - destruct (State.showFinishModal s); [|discriminate].
    injection Hstep as <-. repeat split. by left.
  - destruct (State.showFinishModal s); [|discriminate].
    injection Hstep as <-. repeat split. by left.
  - destruct (State.showFinishModal s); [|discriminate].
    injection Hstep as <-. repeat split. by left.
  - destruct (State.showRestTimer s); [|discriminate].
    injection Hstep as <-. repeat split. by left.
  - destruct (State.showRestTimer s); [|discriminate].
    injection Hstep as <-. repeat split. by left.
  - destruct (State.showRestTimer s); [|discriminate].
    injection Hstep as <-. repeat split. by left.
Qed.

Lemma step_length (e : event) (s s' : State.t) :
  step e s = Some s' ->
  length (State.exercises s') = length (State.exercises s).
Proof.
  intros Hstep.
  destruct (step_exercises e s s' Hstep) as [-> | (ex & ex' & _ & _ & ->)];
    [done | apply length_insert].
Qed.

(** In every reachable state with exercises the exercise cursor points at
    one of them, so the screen always has a current exercise to show and
    the progress bar never passes 100 %. *)
Theorem exercise_cursor_in_bounds (s : State.t) :
  reachable s ->
  State.exercises s <> [] ->
  State.currentExerciseIndex s < length (State.exercises s).
Proof.
  intros Hreach Hne.
  assert (Hle : State.currentExerciseIndex s <= length (State.exercises s) - 1).
  { clear Hne.
    destruct Hreach
      as [-> | (G & generateId & g & now & loaded & fetched & events & Hrun)];
      [cbn; lia|].
    destruct (loadTemplate_exercises G generateId g now loaded fetched)
      as [_ H0].
    cbv zeta in H0.
    set (s0 := fst (loadTemplate G generateId now loaded fetched State.mount g))
      in *.
    assert (H : State.currentExerciseIndex s0
                <= length (State.exercises s0) - 1) by lia.
    clearbody s0. clear H0.
    revert s0 H Hrun. induction events as [|e events IH]; intros s0 H Hrun.
    - by injection Hrun as <-.
    - cbn in Hrun. destruct (step e s0) as [s1|] eqn:Hstep; [|discriminate].
      apply (IH s1); [|done].
      rewrite (step_length e s0 s1 Hstep).
      destruct (step_frame e s0 s1 Hstep) as (_ & _ & [Hc|Hc]); lia. }
  destruct (State.exercises s); [done|]. cbn in *. lia.
Qed.

Lemma exercise_cursor_in_bounds_witness :
  State.currentExerciseIndex (nextExercise upperBodyUnderWay)
  < length (State.exercises (nextExercise upperBodyUnderWay)).
Proof.
  apply exercise_cursor_in_bounds.
  - right. exists nat, counterId, 0, startedAt, upperBody, [],
      [PressStart; PressComplete 0; PressSkipRest; PressNext].
    vm_compute. reflexivity.
  - vm_compute. discriminate.
Defined.




(** * The count of completed sets *)

Lemma foldl_sum {A} (f : A -> nat) (l : list A) (a : nat) :
  foldl (fun total x => total + f x) a l = a + sum_list (f <$> l).
Proof.
  revert a. induction l as [|x l IH]; intros a; cbn; [lia|].
  rewrite IH. lia.
Qed.

Lemma sum_list_insert {A} (f : A -> nat) (l : list A) (i : nat) (x y : A) :
  l !! i = Some x ->
  sum_list (f <$> <[i := y]> l) + f x = sum_list (f <$> l) + f y.
Proof.
  revert i. induction l as [|a l IH]; intros [|i] Hx; try done.
  - injection Hx as ->. cbn. lia.
  - specialize (IH i Hx). simpl. rewrite <- !Nat.add_assoc.
    f_equal. exact IH.
Qed.

Lemma filter_length_insert {A} (p : A -> bool) (l : list A) (i : nat)
  (x y : A) :
  l !! i = Some x ->
  length (List.filter p (<[i := y]> l)) + Nat.b2n (p x)
  = length (List.filter p l) + Nat.b2n (p y).
Proof.
  revert i. induction l as [|a l IH]; intros [|i] Hx; try done.
  - injection Hx as ->. cbn. destruct (p x), (p y); cbn; lia.
  - specialize (IH i Hx). simpl.
    destruct (p a); simpl; [f_equal|]; exact IH.
Qed.

(** The completed sets of one exercise. *)
Lemma rowEvent_count (ex ex' : ActiveExercise.t) :
  rowEvent ex ex' ->
  let count := fun e : ActiveExercise.t =>
    length (List.filter WorkoutSet.completed (ActiveExercise.sets e)) in
  count ex <= count ex' <= count ex + 1.
Proof.
  intros [si set Hset Hopen _ | si set f v Hset Hopen | text]; cbv zeta.
  - pose proof (filter_length_insert WorkoutSet.completed _ si set
                  (mergeSet set (PartialSet.of_set set)) Hset) as H.
    rewrite Hopen in H. cbn in H.
    destruct (si <? length (ActiveExercise.sets ex) - 1); cbn; lia.
  - pose proof (filter_length_insert WorkoutSet.completed _ si set
                  (writeField f v set) Hset) as H.
    rewrite Hopen in H. cbn in H. rewrite Hopen in H. cbn in *. lia.
  - cbn. lia.
Qed.

(** The "Sets Completed" count never goes down, and a run of [n] events
    raises it by at most [n]. *)
Theorem setsCompleted_never_drops (events : list event) (s s' : State.t) :
  run events s = Some s' ->
  setsCompleted s <= setsCompleted s' <= setsCompleted s + length events.
Proof.
  revert s. induction events as [|e events IH]; intros s Hrun.
  - injection Hrun as <-. cbn. lia.
  - cbn in Hrun. destruct (step e s) as [s1|] eqn:Hstep; [|discriminate].
    specialize (IH s1 Hrun).
    assert (setsCompleted s <= setsCompleted s1 <= setsCompleted s + 1);
      [|cbn [length]; lia].
    unfold setsCompleted. rewrite !foldl_sum.
    destruct (step_exercises e s s1 Hstep)
      as [-> | (ex & ex' & Hex & Hrow & ->)]; [lia|].
    pose proof (rowEvent_count ex ex' Hrow) as Hc. cbv zeta in Hc.
    pose proof (sum_list_insert
      (fun e0 => length (List.filter WorkoutSet.completed
                           (ActiveExercise.sets e0)))
      _ _ ex ex' Hex).
    lia.
Qed.

Lemma setsCompleted_never_drops_witness :
  1 <= setsCompleted
         (default State.mount
            (run [PressNext; PressComplete 0; PressSkipRest; PressComplete 0]
               upperBodyUnderWay)) <= 1 + 4.
Proof.
  apply (setsCompleted_never_drops
           [PressNext; PressComplete 0; PressSkipRest; PressComplete 0]
           upperBodyUnderWay).
  vm_compute. reflexivity.
Defined.

(** Operating the check control of the current, not yet completed set of
    the exercise on screen is always possible and raises the "Sets
    Completed" count by exactly one. *)
Theorem pressing_current_set_adds_one (si : nat) (s : State.t)
  (ex : ActiveExercise.t) (set : ActiveSet) :
  currentExercise s = Some ex ->
  ActiveExercise.sets ex !! si = Some set ->
  WorkoutSet.completed set = false ->
  ActiveExercise.currentSetIndex ex = si ->
  exists s',
    step (PressComplete si) s = Some s' /\
    setsCompleted s' = setsCompleted s + 1 /\
    completedAt (State.currentExerciseIndex s) si s' = Some true.
Proof.
  intros Hcur Hset Hopen Hsi.
  pose proof (currentExercise_lookup s ex Hcur) as Hex.
  unfold step. rewrite Hcur. cbn [control]. unfold pressComplete.
  rewrite Hcur, Hset, Hopen, Hsi, Nat.eqb_refl. cbn [negb].
  rewrite (completeSet_in_range _ _ _ _ _ _ Hex Hset). cbn [done_or_none].
  eexists. split; [reflexivity|].
  pose proof (lookup_lt_Some _ _ _ Hex) as Hlt.
  pose proof (lookup_lt_Some _ _ _ Hset) as Hlt'.
  pose proof (filter_length_insert WorkoutSet.completed _ si set
                (mergeSet set (PartialSet.of_set set)) Hset) as Hc.
  rewrite Hopen in Hc. cbn in Hc.
  unfold setsCompleted, completedAt. rewrite !foldl_sum.
  destruct (si <? length (ActiveExercise.sets ex) - 1);
    [|destruct (State.currentExerciseIndex s <? length (State.exercises s) - 1)];
    unfold State.setExercises, State.setCurrentExerciseIndex,
      State.setShowFinishModal; read_state.
  all: split;
    [ match goal with
      | |- context [<[_ := ?e']> _] =>
          pose proof (sum_list_insert
            (fun e0 => length (List.filter WorkoutSet.completed
                                 (ActiveExercise.sets e0)))
            _ _ ex e' Hex) as Hs
      end; cbn in Hs; cbn; lia
    | rewrite list_lookup_insert_eq by done; cbn;
      by rewrite list_lookup_insert_eq by done ].
Qed.

Lemma pressing_current_set_adds_one_witness :
  exists s',
    step (PressComplete 1) upperBodyUnderWay = Some s' /\
    setsCompleted s' = 2.
Proof.
  destruct (pressing_current_set_adds_one 1 upperBodyUnderWay
              (default (ActiveExercise.mk "" "" [] 0 "")
                 (currentExercise upperBodyUnderWay))
              (plannedRow "1" 8 0))
    as (s' & Hstep & Hcount & _);
    [vm_compute; reflexivity..|].
  exists s'. split; [exact Hstep|]. rewrite Hcount. vm_compute. reflexivity.
Defined.

(** * Properties of [formatTime] *)

Example formatTime_samples :
  formatTime 0 = "0:00" /\ formatTime 75 = "1:15" /\
  formatTime 3599 = "59:59" /\ formatTime 3600 = "1:00:00" /\
  formatTime 36610 = "10:10:10".
Proof. by_evaluation. Qed.

Lemma length_string_app (a b : string) :
  String.length (a +:+ b) = String.length a + String.length b.
Proof. induction a as [|c a IH]; simpl; [done | f_equal; exact IH]. Qed.

(** Two concatenations whose tails have the same length agree part by
    part. *)
Lemma string_app_inj_tail (a b x y : string) :
  String.length x = String.length y ->
  a +:+ x = b +:+ y -> a = b /\ x = y.
Proof.
  revert b. induction a as [|c a IH]; intros [|d b] Hlen Heq.
  - done.
  - apply (f_equal String.length) in Heq.
    change (String.length x = S (String.length (b +:+ y))) in Heq.
    rewrite length_string_app in Heq. lia.
  - apply (f_equal String.length) in Heq.
    change (S (String.length (a +:+ x)) = String.length y) in Heq.
    rewrite length_string_app in Heq. lia.
  - change (String c (a +:+ x) = String d (b +:+ y)) in Heq.
    injection Heq as -> Heq. destruct (IH b Hlen Heq) as [-> ->]. done.
Qed.

Lemma pretty_N_go_length (x : N) (s : string) :
  String.length s <= String.length (pretty_N_go x s).
Proof.
  revert s. induction (N.lt_wf_0 x) as [x _ IH]; intros s.
  assert (x = 0 \/ 0 < x)%N as [->|Hpos] by lia; [by rewrite pretty_N_go_0|].
  rewrite pretty_N_go_step by done.
  etrans; [|eapply IH, N.div_lt; [done | lia]]. simpl. lia.
Qed.

Lemma toString_length (n : Z) : 1 <= String.length (toString n).
Proof.
  unfold toString, pretty, pretty_Z.
  destruct n as [|p|p]; [simpl; lia | |].
  - unfold pretty, pretty_positive, pretty, pretty_N.
    destruct (decide _) as [|_]; [done|].
    rewrite pretty_N_go_step by lia.
    etrans; [|apply pretty_N_go_length]. simpl. lia.
  - change (1 <= S (String.length (pretty p))). lia.
Qed.

(** Checking a property of the numbers below 60 by evaluation. *)
Lemma below_60 (P : Z -> bool) :
  forallb P (Z.of_nat <$> seq 0 60) = true ->
  forall m : Z, (0 <= m < 60)%Z -> P m = true.
Proof.
  intros Hall m Hm. rewrite forallb_forall in Hall. apply Hall.
  apply in_map_iff. exists (Z.to_nat m). split; [lia|].
  apply in_seq. lia.
Qed.

Lemma twoDigits_length (m : Z) :
  (0 <= m < 60)%Z -> String.length (padStart 2 "0" (toString m)) = 2.
Proof.
  intros Hm. apply Nat.eqb_eq.
  apply (below_60
           (fun m => String.length (padStart 2 "0" (toString m)) =? 2));
    [|done].
  vm_compute. reflexivity.
Qed.

Lemma toString_length_60 (m : Z) :
  (0 <= m < 60)%Z -> String.length (toString m) <= 2.
Proof.
  intros Hm. apply Nat.leb_le.
  apply (below_60 (fun m => String.length (toString m) <=? 2)); [|done].
  vm_compute. reflexivity.
Qed.

Lemma twoDigits_inj (m m' : Z) :
  (0 <= m < 60)%Z -> (0 <= m' < 60)%Z ->
  padStart 2 "0" (toString m) = padStart 2 "0" (toString m') -> m = m'.
Proof.
  intros Hm Hm' Heq.
  pose proof (below_60
    (fun x => forallb
                (fun y => implb (String.eqb (padStart 2 "0" (toString x))
                                            (padStart 2 "0" (toString y)))
                                (x =? y)%Z)
                (Z.of_nat <$> seq 0 60))) as H.
  specialize (H ltac:(vm_compute; reflexivity) m Hm).
  rewrite forallb_forall in H.
  assert (Hin : In m' (Z.of_nat <$> seq 0 60)).
  { apply in_map_iff. exists (Z.to_nat m'). split; [lia|]. apply in_seq. lia. }
  specialize (H m' Hin). rewrite Heq, String.eqb_refl in H.
  by apply Z.eqb_eq.
Qed.

Lemma formatTime_fields (seconds : Z) :
  (0 <= seconds)%Z ->
  (0 <= seconds / 3600)%Z /\
  (0 <= Z.rem seconds 3600 / 60 < 60)%Z /\
  (0 <= Z.rem seconds 60 < 60)%Z /\
  seconds = (3600 * (seconds / 3600) + 60 * (Z.rem seconds 3600 / 60)
             + Z.rem seconds 60)%Z.
Proof.
  intros Hs. rewrite !Z.rem_mod_nonneg by lia.
  pose proof (Z.mod_pos_bound seconds 3600 ltac:(lia)).
  pose proof (Z.mod_pos_bound seconds 60 ltac:(lia)).
  pose proof (Z.div_pos seconds 3600 Hs ltac:(lia)).
  pose proof (Z.div_mod seconds 3600 ltac:(lia)).
  pose proof (Z.div_mod (seconds mod 3600) 60 ltac:(lia)).
  pose proof (Z.mod_pos_bound (seconds mod 3600) 60 ltac:(lia)).
  assert ((seconds mod 3600) mod 60 = seconds mod 60)%Z.
  { rewrite <- (Z_mod_plus_full (seconds mod 3600) (60 * (seconds / 3600)) 60).
    f_equal. lia. }
  assert (0 <= (seconds mod 3600) / 60 < 60)%Z.
  { split; [apply Z.div_pos; lia|]. apply Z.div_lt_upper_bound; lia. }
  lia.
Qed.

(** Two different clock values are never displayed alike: on times that
    are not negative, [formatTime] is injective. *)
Theorem formatTime_inj (a b : Z) :
  (0 <= a)%Z -> (0 <= b)%Z -> formatTime a = formatTime b -> a = b.
Proof.
  intros Ha Hb.
  destruct (formatTime_fields a Ha) as (Hha & Hma & Hsa & Hda).
  destruct (formatTime_fields b Hb) as (Hhb & Hmb & Hsb & Hdb).
  unfold formatTime.
  set (ha := (a / 3600)%Z) in *. set (ma := (Z.rem a 3600 / 60)%Z) in *.
  set (sa := Z.rem a 60) in *.
  set (hb := (b / 3600)%Z) in *. set (mb := (Z.rem b 3600 / 60)%Z) in *.
  set (sb := Z.rem b 60) in *.
  pose proof (twoDigits_length ma Hma) as Lma.
  pose proof (twoDigits_length mb Hmb) as Lmb.
  pose proof (twoDigits_length sa Hsa) as Lsa.
  pose proof (twoDigits_length sb Hsb) as Lsb.
  remember (padStart 2 "0" (toString ma)) as pma eqn:Epma.
  remember (padStart 2 "0" (toString mb)) as pmb eqn:Epmb.
  remember (padStart 2 "0" (toString sa)) as psa eqn:Epsa.
  remember (padStart 2 "0" (toString sb)) as psb eqn:Epsb.
  destruct (Z.ltb_spec 0 ha), (Z.ltb_spec 0 hb); intros Heq.
  - apply string_app_inj_tail in Heq as [Hh Heq];
      [|rewrite !length_string_app; simpl; lia].
    apply (inj pretty) in Hh.
    change (String ":" (pma +:+ ":" +:+ psa) = String ":" (pmb +:+ ":" +:+ psb))
      in Heq.
    injection Heq as Heq.
    apply string_app_inj_tail in Heq as [Hm Heq]; [|rewrite !length_string_app; simpl; lia].
    change (String ":" psa = String ":" psb) in Heq. injection Heq as Heq.
    rewrite Epma, Epmb in Hm. rewrite Epsa, Epsb in Heq.
    apply twoDigits_inj in Hm; [|done..]. apply twoDigits_inj in Heq; [|done..].
    lia.
  - apply (f_equal String.length) in Heq.
    rewrite !length_string_app in Heq. simpl in Heq.
    pose proof (toString_length ha). pose proof (toString_length_60 mb Hmb).
    lia.
  - apply (f_equal String.length) in Heq.
    rewrite !length_string_app in Heq. simpl in Heq.
    pose proof (toString_length hb). pose proof (toString_length_60 ma Hma).
    lia.
  - apply string_app_inj_tail in Heq as [Hm Heq];
      [|rewrite !length_string_app; simpl; lia].
    apply (inj pretty) in Hm.
    change (String ":" psa = String ":" psb) in Heq. injection Heq as Heq.
    rewrite Epsa, Epsb in Heq.
    apply twoDigits_inj in Heq; [|done..]. lia.
Qed.

Lemma formatTime_inj_witness :
  formatTime 3725 = "1:02:05" /\
  forall t : Z, (0 <= t)%Z -> formatTime t = formatTime 3725 -> t = 3725%Z.
Proof.
  split; [vm_compute; reflexivity|].
  intros t Ht Heq. apply (formatTime_inj t 3725 Ht); [lia | exact Heq].
Defined.

(** * Bounds and frame of [completeSet] *)



(** [completeSet] writes one set: every other set of every exercise, and
    every other exercise as a whole, set cursor included, is as before. *)
Theorem completeSet_touches_one_set (exerciseIndex setIndex : nat)
  (updatedSet : PartialSet.t) (s s' : State.t) :
  completeSet exerciseIndex setIndex updatedSet s = Done s' ->
  (forall i, i <> exerciseIndex ->
             State.exercises s' !! i = State.exercises s !! i) /\
  (forall j, j <> setIndex ->
     (ex ← State.exercises s' !! exerciseIndex; ActiveExercise.sets ex !! j)
     = (ex ← State.exercises s !! exerciseIndex; ActiveExercise.sets ex !! j))
  /\ length (State.exercises s') = length (State.exercises s).
Proof.
  intros Hdone.
  destruct (completeSet_Done_inv _ _ _ _ _ Hdone) as (ex & set & Hex & Hset).
  rewrite (completeSet_in_range _ _ _ _ _ _ Hex Hset) in Hdone.
  injection Hdone as <-.
  pose proof (lookup_lt_Some _ _ _ Hex) as Hlt.
  destruct (setIndex <? length (ActiveExercise.sets ex) - 1);
    [|destruct (exerciseIndex <? length (State.exercises s) - 1)];
    unfold State.setExercises, State.setCurrentExerciseIndex,
      State.setShowFinishModal; read_state.
  all: split; [|split];
    [ intros i Hi; by rewrite list_lookup_insert_ne
    | intros j Hj; rewrite list_lookup_insert_eq by done; rewrite Hex; cbn;
      by rewrite list_lookup_insert_ne
    | apply length_insert ].
Qed.

Lemma completeSet_touches_one_set_witness :
  State.exercises (settled (completeSet 0 1 (lifted 8 55) upperBodyUnderWay))
    !! 1
  = State.exercises upperBodyUnderWay !! 1.
Proof.
  apply (proj1 (completeSet_touches_one_set 0 1 (lifted 8 55) upperBodyUnderWay
                  (settled (completeSet 0 1 (lifted 8 55) upperBodyUnderWay))
                  ltac:(vm_compute; reflexivity))).
  lia.
Defined.

(** * The date of the session *)


(** * The workout clock along a run *)

Lemma step_workoutTime (e : event) (s s' : State.t) :
  step e s = Some s' ->
  (State.workoutTime s <= State.workoutTime s' <= State.workoutTime s + 1)%Z.
Proof.
  intros Hstep. unfold step in Hstep.
  destruct e;
    try (destruct (currentExercise s) as [ex|] eqn:Hcur; [|discriminate];
         cbn [control] in Hstep).
  - destruct (workoutTimerRunning s); [|discriminate].
    injection Hstep as <-. cbn. lia.
  - destruct (restTimerRunning s); [|discriminate].
    injection Hstep as <-. unfold restTimerFire.
    destruct (State.restTime s <=? 1)%Z; cbn; lia.
  - destruct (State.isWorkoutStarted s); [discriminate|].
    injection Hstep as <-. cbn. lia.
  - destruct (State.isWorkoutStarted s); [|discriminate].
    injection Hstep as <-. destruct (State.isPaused s); cbn; lia.
  - unfold pressComplete in Hstep. rewrite Hcur in Hstep.
    apply currentExercise_lookup in Hcur.
    destruct (ActiveExercise.sets ex !! setIndex) as [set|] eqn:Hset;
      [|injection Hstep as <-; lia].
    destruct (WorkoutSet.completed set); [injection Hstep as <-; lia|].
    destruct (negb _); [injection Hstep as <-; lia|].
    rewrite (completeSet_in_range _ _ _ _ _ _ Hcur Hset) in Hstep.
    cbn [done_or_none] in Hstep. injection Hstep as <-.
    set (r := js_or _ _).
    assert (Hw : State.workoutTime (startRest r s) = State.workoutTime s).
    { unfold startRest. by destruct (truthy r && js_gt0 r), r. }
    destruct (setIndex <? length (ActiveExercise.sets ex) - 1);
      [|destruct (State.currentExerciseIndex s <? length (State.exercises s) - 1)];
      unfold State.setExercises, State.setCurrentExerciseIndex,
        State.setShowFinishModal; read_state; lia.
  - destruct (ActiveExercise.sets ex !! setIndex) as [set|]; [|discriminate].
    destruct (WorkoutSet.completed set); [discriminate|].
    unfold changeField, at_index in Hstep.
    destruct (State.exercises s !! State.currentExerciseIndex s) as [ex'|];
      [|discriminate].
    cbn [mbind outcome_bind] in Hstep.
    destruct (ActiveExercise.sets ex' !! setIndex); [|discriminate].
    injection Hstep as <-. cbn. lia.
  - unfold changeExerciseNotes, at_index in Hstep.
    destruct (State.exercises s !! State.currentExerciseIndex s);
      [|discriminate].
    injection Hstep as <-. cbn. lia.
  - destruct (State.currentExerciseIndex s =? 0); [discriminate|].
    injection Hstep as <-. cbn. lia.
  - destruct (State.currentExerciseIndex s =? length (State.exercises s) - 1);
      [discriminate|].
    injection Hstep as <-. cbn. lia.
  - injection Hstep as <-. cbn. lia.
  - destruct (State.showFinishModal s); [|discriminate].
    injection Hstep as <-. cbn. lia.
  - destruct (State.showFinishModal s); [|discriminate].
    injection Hstep as <-. cbn. lia.
  - destruct (State.showFinishModal s); [|discriminate].
    injection Hstep as <-. lia.
  - destruct (State.showRestTimer s); [|discriminate].
    injection Hstep as <-. cbn. lia.
  - destruct (State.showRestTimer s); [|discriminate].
    injection Hstep as <-. cbn. lia.
  - destruct (State.showRestTimer s); [|discriminate].
    injection Hstep as <-. cbn. lia.
Qed.

(** The workout clock never runs backwards: along a run of [n] events it
    grows by at least 0 and at most [n] seconds, and in every reachable
    state it is not negative, so that [formatTime] shows distinct clock
    values differently. *)
Theorem workout_clock_monotone (events : list event) (s s' : State.t) :
  run events s = Some s' ->
  (State.workoutTime s <= State.workoutTime s'
   <= State.workoutTime s + Z.of_nat (length events))%Z /\
  (reachable s -> (0 <= State.workoutTime s')%Z).
Proof.
  intros Hrun.
  assert (Hmono : (State.workoutTime s <= State.workoutTime s'
                   <= State.workoutTime s + Z.of_nat (length events))%Z).
  { revert s Hrun. induction events as [|e events IH]; intros s Hrun.
    - injection Hrun as <-. cbn. lia.
    - cbn in Hrun. destruct (step e s) as [s1|] eqn:Hstep; [|discriminate].
      specialize (IH s1 Hrun). pose proof (step_workoutTime e s s1 Hstep).
      cbn [length]. lia. }
  split; [exact Hmono|].
  intros [-> | (G & generateId & g & now & loaded & fetched & events0 & Hrun0)].
  - cbn in Hmono. lia.
  - assert (H0 : (0 <= State.workoutTime s)%Z); [|lia].
    clear Hmono Hrun.
    assert (Hload : State.workoutTime
                      (fst (loadTemplate G generateId now loaded fetched
                              State.mount g)) = 0%Z).
    { unfold loadTemplate, initializeExercises, initializeWorkoutSession,
        bind, ret.
      destruct (activeExercises _ _ _ _) as [exs g1].
      by destruct (generateId g1). }
    revert Hrun0 Hload.
    generalize (fst (loadTemplate G generateId now loaded fetched State.mount g)).
    intros s0 Hrun0 Hload.
    assert (State.workoutTime s0 <= State.workoutTime s)%Z; [|lia].
    clear Hload. revert s0 Hrun0.
    induction events0 as [|e events0 IH]; intros s0 Hrun0.
    + injection Hrun0 as <-. lia.
    + cbn in Hrun0. destruct (step e s0) as [s1|] eqn:Hstep; [|discriminate].
      specialize (IH s1 Hrun0). pose proof (step_workoutTime e s0 s1 Hstep).
      lia.
Qed.

Lemma workout_clock_monotone_witness :
  (0 <= State.workoutTime
          (default State.mount
             (run [WorkoutTimer; WorkoutTimer; PressPauseResume]
                upperBodyUnderWay)) <= 3)%Z.
Proof.
  destruct (workout_clock_monotone
              [WorkoutTimer; WorkoutTimer; PressPauseResume]
              upperBodyUnderWay
              (default State.mount
                 (run [WorkoutTimer; WorkoutTimer; PressPauseResume]
                    upperBodyUnderWay))
              ltac:(vm_compute; reflexivity)) as [Hmono _].
  assert (H0 : State.workoutTime upperBodyUnderWay = 0%Z)
    by (vm_compute; reflexivity).
  rewrite H0 in Hmono. cbn [length] in Hmono. lia.
Defined.

(** * Loading with the fallback rows *)

(** After [loadTemplate] the screen has nothing to run (it shows "No
    exercises found") exactly when the template row carries no exercise
    of its own and the directly fetched rows are empty too; rows fetched
    directly are used only when the template has none. *)
Theorem loadTemplate_nothing_to_run (G : Type) (generateId : G -> string * G)
  (g : G) (now : string) (loaded : WorkoutTemplate.t)
  (fetched : list TemplateExercise.t) :
  let s := fst (loadTemplate G generateId now loaded fetched State.mount g) in
  (State.exercises s = [] <->
   (WorkoutTemplate.exercises loaded = None \/
    WorkoutTemplate.exercises loaded = Some []) /\ fetched = []) /\
  length (State.exercises s) =
    length (match WorkoutTemplate.exercises loaded with
            | Some (te :: tes) => te :: tes
            | _ => fetched
            end).
Proof.
  unfold loadTemplate, initializeExercises, initializeWorkoutSession,
    activeExercises, bind, ret.
  destruct (WorkoutTemplate.exercises loaded) as [[|te tes']|];
    [destruct fetched as [|te tes'] | | destruct fetched as [|te tes']];
    cbn [WorkoutTemplate.exercises]; cbv beta iota zeta.
  1,4: destruct (generateId g) as [i g']; cbn; split; [|done];
       split; [intros _; split; [auto | done] | done].
  all: pose proof (mapG_Forall2 G (initializeExercise G generateId)
                     (te :: tes') g) as HF;
       destruct (mapG (initializeExercise G generateId) (te :: tes') g)
         as [exs g1];
       destruct (generateId g1) as [i g2]; cbn in HF |- *;
       apply Forall2_length in HF; cbn in HF;
       (split; [|done]);
       split; [intros ->; discriminate | intros [H1 H2]];
       try discriminate; destruct H1; discriminate.
Qed.
